(** * nob.py: a levelled console/file logger and a shell command runner

    A shallow embedding of [c_test/nob.py].  Python [str] values are
    modelled as [string], one [ascii] per code point (code points below
    256); the console, the file system, the clock and the spawned shell
    are an explicit [World] threaded through every effectful function;
    what the operating system answers (the time, whether a file can be
    opened, what the shell does with a command line) is read from a
    [Platform]. *)

From Stdlib Require Import ZArith List Ascii String DecimalString Lia.
From stdpp Require Import base gmap strings.
From Equations Require Import Equations.
Import ListNotations.

Local Open Scope string_scope.
Local Open Scope Z_scope.

(** ** ANSI escape codes (nob.py, lines 11-16) *)

Definition ESC : ascii := ascii_of_nat 27.
Definition LF : ascii := ascii_of_nat 10.

Definition ANSI_RESET : string := String ESC "[0m".
Definition ANSI_GREEN : string := String ESC "[32m".
Definition ANSI_YELLOW : string := String ESC "[33m".
Definition ANSI_RED : string := String ESC "[31m".
Definition ANSI_CYAN : string := String ESC "[36m".
Definition ANSI_BRIGHT_GREEN : string := String ESC "[92m".

(** ** LogType (lines 18-28) *)

Inductive LogType : Set := DEBUG | INFO | WARNING | ERROR | SUCCESS.

(** [self.type.value] *)
Definition value (t : LogType) : Z :=
  match t with
  | DEBUG => 0
  | INFO => 1
  | WARNING => 2
  | ERROR => 3
  | SUCCESS => 4
  end.

(** [self.type._name_] *)
Definition _name_ (t : LogType) : string :=
  match t with
  | DEBUG => "DEBUG"
  | INFO => "INFO"
  | WARNING => "WARNING"
  | ERROR => "ERROR"
  | SUCCESS => "SUCCESS"
  end.

(** ** Python built-ins used by the module *)

(** Truth value of a [str]: empty is false. *)
Definition str_truthy (s : string) : bool :=
  match s with
  | EmptyString => false
  | String _ _ => true
  end.

(** Truth value of an [Optional[str]]: [None] and [""] are false. *)
Definition opt_truthy (o : option string) : bool :=
  match o with
  | None => false
  | Some s => str_truthy s
  end.

(** [str.isspace] on one code point below 256. *)
Definition isspace (c : ascii) : bool :=
  let n := nat_of_ascii c in
  ((9 <=? n) && (n <=? 13) || (28 <=? n) && (n <=? 32)
   || (n =? 133) || (n =? 160))%nat.

Fixpoint lstrip (s : string) : string :=
  match s with
  | EmptyString => EmptyString
  | String c s' => if isspace c then lstrip s' else s
  end.

(** [rstrip] keeps a character when it is not a space or when something
    survives to its right. *)
Fixpoint rstrip (s : string) : string :=
  match s with
  | EmptyString => EmptyString
  | String c s' =>
      match rstrip s' with
      | EmptyString => if isspace c then EmptyString else String c EmptyString
      | r => String c r
      end
  end.

(** [str.strip()] *)
Definition strip (s : string) : string := rstrip (lstrip s).

(** [str(n)] / [f"{n}"] / ["%d" % n] for an [int]. *)
Definition str_int (n : Z) : string := NilZero.string_of_int (Z.to_int n).

(** [' '.join(l)] is [String.concat " " l]. *)
Definition join (sep : string) (l : list string) : string := String.concat sep l.

(** ** datetime and strftime("%Y-%m-%d %H:%M:%S") *)

Record datetime : Set := mkDatetime {
  year : N; month : N; day : N;
  hour : N; minute : N; second : N
}.

Fixpoint zeros (k : nat) : string :=
  match k with
  | O => EmptyString
  | S k' => String "0" (zeros k')
  end.

(** Decimal rendering left-padded with zeros to [width] characters. *)
Definition zpad (width : nat) (n : N) : string :=
  let s := NilZero.string_of_uint (N.to_uint n) in
  zeros (width - String.length s) +:+ s.

Definition strftime (t : datetime) : string :=
  zpad 4 (year t) +:+ "-" +:+ zpad 2 (month t) +:+ "-" +:+ zpad 2 (day t)
  +:+ " " +:+ zpad 2 (hour t) +:+ ":" +:+ zpad 2 (minute t) +:+ ":"
  +:+ zpad 2 (second t).

(** The values [datetime.now()] can return. *)
Definition valid_datetime (t : datetime) : Prop :=
  (1 <= year t <= 9999 /\ 1 <= month t <= 12 /\ 1 <= day t <= 31
   /\ hour t < 24 /\ minute t < 60 /\ second t < 60)%N.

(** ** The world outside the interpreter *)

(** How the [with open(path, 'a') ... f.write(...)] of lines 102-103 can
    fail on a path:
    - [AtOpen]: [open] raises [IOError] (no permission, no such
      directory); nothing is created or changed;
    - [AtWrite]: [open] succeeds, which creates the file when nothing
      [existing] was there, and the write, or the flush when the file is
      closed, raises [IOError] (device full, size limit) after the first
      [partial] characters of the new text have reached the file; the
      text that was there stays, and the device then takes no more;
    - [NotIOError]: [open] raises an exception that is not an [IOError]
      ([ValueError] for a path that holds a NUL character).
    In each case the string is the [str] of the exception.  A bare string
    used as a failure stands for the failure of [open] with an
    [IOError]. *)
Inductive failure : Type :=
| AtOpen (strerror : string)
| AtWrite (strerror : string) (existing : option string) (partial : nat)
| NotIOError (msg : string).

Coercion AtOpen : string >-> failure.

(** A path of the file system: a regular file with its text, or a path
    on which appending fails. A path absent from the map is created and
    written by [open(path, 'a')]. *)
Inductive fnode : Type :=
| Regular (content : string)
| Refuses (f : failure).

(** What [subprocess.run(..., shell=True, capture_output=True, text=True)]
    meets when it spawns the shell: the shell ran and exited, or the spawn
    itself raised [FileNotFoundError], or it raised something else. *)
Inductive popen_outcome : Type :=
| Exited (returncode : Z) (out err : string)
| SpawnNotFound (msg : string)
| SpawnFault (msg : string).

Record Platform : Type := mkPlatform {
  (** the time read by the k-th call of [datetime.now()] *)
  clock : nat -> datetime;
  (** what the shell does with a command line, and to the files *)
  shell : string -> gmap string fnode -> popen_outcome * gmap string fnode;
  (** [repr(signal.Signals(n))], when [n] is a signal of the platform *)
  signal_repr : Z -> option string
}.

Record World : Type := mkWorld {
  console : list string;        (* one entry per [print] call *)
  files : gmap string fnode;
  ticks : nat;                  (* calls of [datetime.now()] so far *)
  spawned : list string;        (* command lines handed to the shell *)
  opened : list string;         (* paths [open] was called on *)
  uncaught : list string        (* exceptions that left [log] uncaught *)
}.

Definition print (s : string) (w : World) : World :=
  mkWorld (console w ++ [s]) (files w) (ticks w) (spawned w) (opened w)
          (uncaught w).

Definition datetime_now (pf : Platform) (w : World) : datetime * World :=
  (clock pf (ticks w),
   mkWorld (console w) (files w) (S (ticks w)) (spawned w) (opened w)
           (uncaught w)).

(** What the [try] body of lines 101-103 ends with. *)
Inductive write_outcome : Type :=
| Written
| RaisedIOError (e : string)
| RaisedOther (msg : string).

(** [with open(path, 'a', encoding='utf-8') as f: f.write(text)]: the
    text is appended, or an exception is raised, by [open] before anything
    has changed or by the write after [open] has created the file. *)
Definition append_file (path text : string) (w : World)
    : write_outcome * World :=
  let w := mkWorld (console w) (files w) (ticks w) (spawned w)
                   (opened w ++ [path]) (uncaught w) in
  match files w !! path with
  | Some (Refuses (AtOpen e)) => (RaisedIOError e, w)
  | Some (Refuses (AtWrite e existing partial)) =>
      let reached := String.substring 0 partial text in
      (RaisedIOError e,
       mkWorld (console w)
               (<[path := Refuses (AtWrite e
                                     (Some (default EmptyString existing
                                            +:+ reached)) 0)]> (files w))
               (ticks w) (spawned w) (opened w) (uncaught w))
  | Some (Refuses (NotIOError msg)) => (RaisedOther msg, w)
  | Some (Regular old) =>
      (Written,
       mkWorld (console w) (<[path := Regular (old +:+ text)]> (files w))
               (ticks w) (spawned w) (opened w) (uncaught w))
  | None =>
      (Written,
       mkWorld (console w) (<[path := Regular text]> (files w))
               (ticks w) (spawned w) (opened w) (uncaught w))
  end.

(** An exception leaves the call uncaught: the caller gets it. *)
Definition propagate (msg : string) (w : World) : World :=
  mkWorld (console w) (files w) (ticks w) (spawned w) (opened w)
          (uncaught w ++ [msg]).

(** ** Log (lines 30-107) *)

Record Log : Type := mkLog {
  type : LogType;
  log_level : LogType;
  log_file_path : option string
}.

(** [Log.__init__] with its defaults spelled out at each call site. *)
Definition Log_init (ty lvl : LogType) (path : option string) : Log :=
  mkLog ty lvl path.

Definition _get_color (self : Log) : string :=
  match type self with
  | DEBUG => ANSI_CYAN
  | INFO => ANSI_GREEN
  | WARNING => ANSI_YELLOW
  | ERROR => ANSI_RED
  | SUCCESS => ANSI_BRIGHT_GREEN
  end.

Definition _format_content (pf : Platform) (self : Log) (content : string)
    (w : World) : string * World :=
  let '(t, w) := datetime_now pf w in
  let timestamp := strftime t in
  let color := _get_color self in
  (color +:+ "[" +:+ timestamp +:+ " " +:+ _name_ (type self) +:+ "]: "
   +:+ content +:+ ANSI_RESET, w).

(** The line [log] builds for the file (line 94). *)
Definition plain_line (timestamp : string) (ty : LogType) (content : string)
    : string :=
  "[" +:+ timestamp +:+ " " +:+ _name_ ty +:+ "]: " +:+ content
  +:+ String LF "".

(** Number of file writes a logger can still cause: the recursion of
    [log] on the error logger goes down on it. *)
Definition file_budget (self : Log) : nat :=
  if opt_truthy (log_file_path self) then 1%nat else 0%nat.

Definition below_level (self : Log) : bool :=
  value (type self) <? value (log_level self).

(** Remembers which value a scrutinee had, for the termination proof. *)
Definition inspect {A : Type} (a : A) : {b : A | a = b} := exist _ a eq_refl.

(** [Log.log]: the world the call leaves.  The [except IOError] of line
    104 is the [RaisedIOError] case; an exception it does not catch ends
    the call and is recorded last in [uncaught]. *)
Equations? log (pf : Platform) (self : Log) (content : string) (w : World)
    : World by wf (file_budget self) lt :=
  log pf self content w with below_level self := {
    | true => w
    | false with _format_content pf self content w := {
      | (formatted_content, w1) with datetime_now pf w1 := {
        | (t, w2) with print formatted_content w2 := {
          | w3 with inspect (log_file_path self) := {
            | exist _ None _ => w3
            | exist _ (Some path) Hpath with inspect (str_truthy path) := {
              | exist _ false _ => w3
              | exist _ true Htruthy
                  with append_file path
                         (plain_line (strftime t) (type self) content) w3 := {
                | (Written, w4) => w4
                | (RaisedIOError e, w4) =>
                    let error_logger := Log_init ERROR (log_level self) None in
                    log pf error_logger
                      ("Failed to write to log file '" +:+ path +:+ "': " +:+ e)
                      w4
                | (RaisedOther msg, w4) => propagate msg w4 } } } } } } }.
Proof.
  unfold file_budget. rewrite Hpath. simpl. rewrite Htruthy. simpl. lia.
Qed.

(** ** Effects: a state monad over the world *)

Definition M (A : Type) : Type := World -> A * World.

Definition ret {A : Type} (a : A) : M A := fun w => (a, w).

Definition bind {A B : Type} (m : M A) (k : A -> M B) : M B :=
  fun w => let '(a, w') := m w in k a w'.

Declare Scope io_scope.
Delimit Scope io_scope with io.
Notation "x <- m ;; k" := (bind m (fun x => k))
  (at level 100, m at next level, right associativity) : io_scope.
Notation "m ;; k" := (bind m (fun _ => k))
  (at level 100, right associativity) : io_scope.

(** [logger.log(content)] as an action of [run].  The logger that
    [Cmd.__init__] builds has no file, so none of its calls raises; what
    leaves a call of a logger with a file is kept in [uncaught]. *)
Definition Log_log (pf : Platform) (self : Log) (content : string) : M unit :=
  fun w => (tt, log pf self content w).

(** ** subprocess *)

Record CompletedProcess : Type := mkCompletedProcess {
  args : string;
  returncode : Z;
  stdout : string;
  stderr : string
}.

(** The exceptions [Cmd.run] tells apart, in the order of its handlers. *)
Inductive exn : Type :=
| CalledProcessError (rc : Z) (cmd output err : string)
| FileNotFoundError (msg : string)
| Exception (msg : string).

(** [str(e)]; for [CalledProcessError] this is its [__str__]. *)
Definition exn_str (pf : Platform) (e : exn) : string :=
  match e with
  | CalledProcessError rc cmd _ _ =>
      if rc <? 0 then
        match signal_repr pf (- rc) with
        | Some r => "Command '" +:+ cmd +:+ "' died with " +:+ r +:+ "."
        | None =>
            "Command '" +:+ cmd +:+ "' died with unknown signal "
            +:+ str_int (- rc) +:+ "."
        end
      else
        "Command '" +:+ cmd +:+ "' returned non-zero exit status "
        +:+ str_int rc +:+ "."
  | FileNotFoundError msg => msg
  | Exception msg => msg
  end.

(** [subprocess.run(args, capture_output=True, text=True, shell=True,
    check=check)]: the command line goes to the shell; with [check], a
    non-zero exit status is raised as [CalledProcessError]. *)
Definition subprocess_run (pf : Platform) (cmdline : string) (check : bool)
    : M (exn + CompletedProcess) :=
  fun w =>
    let '(o, fs) := shell pf cmdline (files w) in
    let w' := mkWorld (console w) fs (ticks w) (spawned w ++ [cmdline])
                      (opened w) (uncaught w) in
    match o with
    | Exited rc out err =>
        if check && negb (rc =? 0)
        then (inl (CalledProcessError rc cmdline out err), w')
        else (inr (mkCompletedProcess cmdline rc out err), w')
    | SpawnNotFound msg => (inl (FileNotFoundError msg), w')
    | SpawnFault msg => (inl (Exception msg), w')
    end.

(** ** Cmd (lines 110-201) *)

Record Cmd : Type := mkCmd {
  command : string;
  flags : list string;
  logger : Log
}.

Definition Cmd_init (command : string) : Cmd :=
  mkCmd command [] (Log_init INFO DEBUG None).

(** [self.flags.extend(flags); return self] *)
Definition add_flags (fl : list string) (self : Cmd) : Cmd :=
  mkCmd (command self) (flags self ++ fl) (logger self).

(** [self.logger.type = ty] *)
Definition set_logger_type (ty : LogType) (self : Cmd) : Cmd :=
  mkCmd (command self) (flags self)
        (mkLog ty (log_level (logger self)) (log_file_path (logger self))).

(** Line 152. *)
Definition full_command (self : Cmd) : string :=
  command self +:+ " " +:+ join " " (flags self).

(** [run] gives back the object as the call left it, with the value
    returned ([inr]) or the exception raised ([inl]). *)
Definition run (pf : Platform) (check_returncode : bool) (self : Cmd)
    : M (Cmd * (exn + CompletedProcess)) :=
  (let self := set_logger_type INFO self in
   Log_log pf (logger self)
     ("Running command: '" +:+ full_command self +:+ "'...") ;;
   r <- subprocess_run pf (full_command self) check_returncode ;;
   match r with
   | inr result =>
       self <- (if returncode result =? 0 then
                  let self := set_logger_type SUCCESS self in
                  Log_log pf (logger self)
                    ("Command '" +:+ command self
                     +:+ "' completed successfully.") ;;
                  ret self
                else
                  let self := set_logger_type WARNING self in
                  Log_log pf (logger self)
                    ("Command '" +:+ command self +:+ "' exited with code "
                     +:+ str_int (returncode result) +:+ ".") ;;
                  ret self) ;;
       self <- (if str_truthy (stdout result) then
                  let self := set_logger_type INFO self in
                  Log_log pf (logger self)
                    ("--- STDOUT ---" +:+ String LF (strip (stdout result))) ;;
                  ret self
                else ret self) ;;
       self <- (if str_truthy (stderr result) then
                  let self := set_logger_type ERROR self in
                  Log_log pf (logger self)
                    ("--- STDERR ---" +:+ String LF (strip (stderr result))) ;;
                  ret self
                else ret self) ;;
       ret (self, inr result)
   | inl (CalledProcessError _ _ e_stdout e_stderr as e) =>
       let self := set_logger_type ERROR self in
       Log_log pf (logger self)
         ("Command '" +:+ command self +:+ "' failed with error: "
          +:+ exn_str pf e) ;;
       (if str_truthy e_stdout then
          Log_log pf (logger self)
            ("--- STDOUT ---" +:+ String LF (strip e_stdout))
        else ret tt) ;;
       (if str_truthy e_stderr then
          Log_log pf (logger self)
            ("--- STDERR ---" +:+ String LF (strip e_stderr))
        else ret tt) ;;
       ret (self, inl e)
   | inl (FileNotFoundError _ as e) =>
       let self := set_logger_type ERROR self in
       Log_log pf (logger self)
         ("Command '" +:+ command self
          +:+ "' not found. Please ensure it is in your PATH.") ;;
       ret (self, inl e)
   | inl (Exception _ as e) =>
       let self := set_logger_type ERROR self in
       Log_log pf (logger self)
         ("An unexpected error occurred while running command '"
          +:+ command self +:+ "': " +:+ exn_str pf e) ;;
       ret (self, inl e)
   end)%io.


(** ** Reading the console back *)

(** The console text of one message: what [print] receives (line 79). *)
Definition colored_line (ty : LogType) (timestamp content : string) : string :=
  _get_color (mkLog ty ty None) +:+ "[" +:+ timestamp +:+ " " +:+ _name_ ty
  +:+ "]: " +:+ content +:+ ANSI_RESET.

(** The severity a console entry was printed with, read off its colour. *)
Definition severity_of_line (line : string) : option LogType :=
  if String.prefix ANSI_CYAN line then Some DEBUG
  else if String.prefix ANSI_GREEN line then Some INFO
  else if String.prefix ANSI_YELLOW line then Some WARNING
  else if String.prefix ANSI_RED line then Some ERROR
  else if String.prefix ANSI_BRIGHT_GREEN line then Some SUCCESS
  else None.

(** The world after a message went to the console only: one more entry,
    two more readings of the clock. *)
Definition emitted (pf : Platform) (ty : LogType) (content : string)
    (w : World) : World :=
  mkWorld (console w ++ [colored_line ty (strftime (clock pf (ticks w))) content])
          (files w) (S (S (ticks w))) (spawned w) (opened w) (uncaught w).

(** Text of a file, empty when the path holds no regular file. *)
Definition file_text (w : World) (path : string) : string :=
  match files w !! path with
  | Some (Regular s) => s
  | Some (Refuses (AtWrite _ existing _)) => default EmptyString existing
  | _ => EmptyString
  end.

Definition failure_report (path e : string) : string :=
  "Failed to write to log file '" +:+ path +:+ "': " +:+ e.

(** The world after [open(path, 'a')] was tried. *)
Definition note_open (path : string) (w : World) : World :=
  mkWorld (console w) (files w) (ticks w) (spawned w) (opened w ++ [path])
          (uncaught w).

(** The world after [text] was appended to [path]. *)
Definition appended (path text : string) (w : World) : World :=
  mkWorld (console w)
          (<[path := Regular (file_text w path +:+ text)]> (files w))
          (ticks w) (spawned w) (opened w ++ [path]) (uncaught w).

(** A clock that always shows a valid date. *)
Definition sample_clock (k : nat) : datetime :=
  mkDatetime 2024 3 7 9 5 (N.of_nat (k mod 60)).

(** A platform whose shell runs every command line as [cc] would run a
    clean build: status 0, nothing printed. *)
Definition quiet_platform : Platform :=
  mkPlatform sample_clock (fun _ fs => (Exited 0 "" "", fs)) (fun _ => None).

Definition empty_world : World := mkWorld [] ∅ 0 [] [] [].

(** A world where ["/ro/build.log"] cannot be opened. *)
Definition locked_world : World :=
  mkWorld [] {[ "/ro/build.log" := Refuses "[Errno 13] Permission denied: '/ro/build.log'" ]}
          0 [] [] [].

(** ** Reading a run back *)

(** A [Cmd] as the class builds it: [__init__] gives the logger minimum
    level DEBUG and no file, and no method changes either. *)
Definition class_built (self : Cmd) : Prop :=
  log_level (logger self) = DEBUG /\ log_file_path (logger self) = None.

(** [logger.type = ty; logger.log(content)] *)
Definition log_as (pf : Platform) (l : Log) (ty : LogType) (content : string)
    (w : World) : World :=
  log pf (mkLog ty (log_level l) (log_file_path l)) content w.

(** A sequence of such calls, first to last. *)
Definition log_all (pf : Platform) (l : Log) (msgs : list (LogType * string))
    (w : World) : World :=
  fold_left (fun w m => log_as pf l (fst m) (snd m) w) msgs w.

(** Console entries of messages printed one after the other, the first
    when the clock has been read [k] times. *)
Fixpoint render_from (pf : Platform) (k : nat) (msgs : list (LogType * string))
    : list string :=
  match msgs with
  | [] => []
  | (ty, content) :: rest =>
      colored_line ty (strftime (clock pf k)) content
      :: render_from pf (S (S k)) rest
  end.

Definition running_message (self : Cmd) : LogType * string :=
  (INFO, "Running command: '" +:+ full_command self +:+ "'...").

Definition status_message (self : Cmd) (result : CompletedProcess)
    : LogType * string :=
  if returncode result =? 0
  then (SUCCESS, "Command '" +:+ command self +:+ "' completed successfully.")
  else (WARNING, "Command '" +:+ command self +:+ "' exited with code "
                 +:+ str_int (returncode result) +:+ ".").

Definition stdout_message (ty : LogType) (out : string) : LogType * string :=
  (ty, "--- STDOUT ---" +:+ String LF (strip out)).

Definition stderr_message (ty : LogType) (err : string) : LogType * string :=
  (ty, "--- STDERR ---" +:+ String LF (strip err)).

(** The captured streams that get a message: the non-empty ones. *)
Definition captured_messages (ty_out ty_err : LogType) (out err : string)
    : list (LogType * string) :=
  ((if str_truthy out then [stdout_message ty_out out] else [])
   ++ (if str_truthy err then [stderr_message ty_err err] else []))%list.

Definition failed_message (pf : Platform) (self : Cmd) (e : exn)
    : LogType * string :=
  (ERROR, "Command '" +:+ command self +:+ "' failed with error: "
          +:+ exn_str pf e).

Definition not_found_message (self : Cmd) : LogType * string :=
  (ERROR, "Command '" +:+ command self
          +:+ "' not found. Please ensure it is in your PATH.").

Definition unexpected_message (pf : Platform) (self : Cmd) (e : exn)
    : LogType * string :=
  (ERROR, "An unexpected error occurred while running command '"
          +:+ command self +:+ "': " +:+ exn_str pf e).

(** The messages of a run after the first, by what [subprocess.run] did. *)
Definition run_messages (pf : Platform) (self : Cmd)
    (r : exn + CompletedProcess) : list (LogType * string) :=
  match r with
  | inr result =>
      status_message self result
      :: captured_messages INFO ERROR (stdout result) (stderr result)
  | inl (CalledProcessError _ _ out err as e) =>
      failed_message pf self e :: captured_messages ERROR ERROR out err
  | inl (FileNotFoundError _) => [not_found_message self]
  | inl (Exception _ as e) => [unexpected_message pf self e]
  end.

Definition last_type (msgs : list (LogType * string)) : LogType :=
  fst (List.last msgs (INFO, EmptyString)).

(** A platform whose shell fails every command line the way a compiler
    fails on a broken source: status 1, a diagnostic on stderr. *)
Definition failing_platform : Platform :=
  mkPlatform sample_clock
    (fun _ fs => (Exited 1 "" ("main.c:1: error: expected ';'" +:+ String LF ""), fs))
    (fun _ => None).

(** A platform whose shell prints on both streams and exits with status 0. *)
Definition chatty_platform : Platform :=
  mkPlatform sample_clock
    (fun _ fs => (Exited 0 ("hi" +:+ String LF "") "warning: unused", fs))
    (fun _ => None).

(** What [subprocess.run] returns or raises for an outcome of the spawn. *)
Definition run_outcome (check : bool) (cmdline : string) (o : popen_outcome)
    : exn + CompletedProcess :=
  match o with
  | Exited rc out err =>
      if check && negb (rc =? 0)
      then inl (CalledProcessError rc cmdline out err)
      else inr (mkCompletedProcess cmdline rc out err)
  | SpawnNotFound msg => inl (FileNotFoundError msg)
  | SpawnFault msg => inl (Exception msg)
  end.

(** ** A POSIX shell, as far as finding the executable goes *)

(** The first word of a command line: its text up to the first space. *)
Fixpoint first_word (s : string) : string :=
  match s with
  | EmptyString => EmptyString
  | String c s' =>
      if Ascii.eqb c " " then EmptyString else String c (first_word s')
  end.

(** With [shell=True], [subprocess] spawns [/bin/sh -c cmdline]; the
    spawn of [/bin/sh] itself succeeds, and it is the shell that looks the
    executable up. [bin] maps the names the shell can find to what the
    program does with the command line; for a name it cannot find the
    shell writes a diagnostic on stderr and exits with status 127. *)
Definition posix_platform (bin : string -> option (string -> Z * string * string))
    : Platform :=
  mkPlatform sample_clock
    (fun cmdline fs =>
       match bin (first_word cmdline) with
       | Some program =>
           let '(rc, out, err) := program cmdline in (Exited rc out err, fs)
       | None =>
           (Exited 127 ""
              ("/bin/sh: 1: " +:+ first_word cmdline +:+ ": not found"
               +:+ String LF ""), fs)
       end)
    (fun _ => None).

(** ** Characters of a text *)

Fixpoint has_char (c : ascii) (s : string) : bool :=
  match s with
  | EmptyString => false
  | String x s' => Ascii.eqb x c || has_char c s'
  end.

Fixpoint count_char (c : ascii) (s : string) : nat :=
  match s with
  | EmptyString => O
  | String x s' => ((if Ascii.eqb x c then 1 else 0) + count_char c s')%nat
  end.

Definition is_digit (c : ascii) : bool :=
  ((48 <=? nat_of_ascii c) && (nat_of_ascii c <=? 57))%nat.

Fixpoint all_digits (s : string) : bool :=
  match s with
  | EmptyString => true
  | String x s' => is_digit x && all_digits s'
  end.

(** The shape [dddd-dd-dd dd:dd:dd]. *)
Definition is_timestamp (s : string) : bool :=
  match s with
  | String y1 (String y2 (String y3 (String y4 (String d1
    (String m1 (String m2 (String d2
    (String a1 (String a2 (String sp
    (String h1 (String h2 (String c1
    (String n1 (String n2 (String c2
    (String s1 (String s2 EmptyString)))))))))))))))))) =>
      is_digit y1 && is_digit y2 && is_digit y3 && is_digit y4
      && Ascii.eqb d1 "-" && is_digit m1 && is_digit m2
      && Ascii.eqb d2 "-" && is_digit a1 && is_digit a2
      && Ascii.eqb sp " " && is_digit h1 && is_digit h2
      && Ascii.eqb c1 ":" && is_digit n1 && is_digit n2
      && Ascii.eqb c2 ":" && is_digit s1 && is_digit s2
  | _ => false
  end.

Definition two_digits (s : string) : bool :=
  match s with
  | String a (String b EmptyString) => is_digit a && is_digit b
  | _ => false
  end.

Definition four_digits (s : string) : bool :=
  match s with
  | String a (String b (String c (String d EmptyString))) =>
      is_digit a && is_digit b && is_digit c && is_digit d
  | _ => false
  end.

(** ** The script (lines 203-214) and the objects the class can build *)

(** [Cmd("cc").add_flags([...]).run()] *)
Definition main (pf : Platform) : M (Cmd * (exn + CompletedProcess)) :=
  run pf false
    (add_flags
       ["./needs_to_link_to_raylib.c"; "-o"; "./needs_to_link_to_raylib";
        "-Wall"; "-O3"; "-lraylib"; "-lm"; "&&"; "./needs_to_link_to_raylib"]
       (Cmd_init "cc")).

(** The [Cmd] objects one gets from the constructor and the two methods. *)
Inductive built_by_class (pf : Platform) : Cmd -> Prop :=
| built_init (base : string) : built_by_class pf (Cmd_init base)
| built_add_flags (fl : list string) (self : Cmd) :
    built_by_class pf self -> built_by_class pf (add_flags fl self)
| built_run (check : bool) (self : Cmd) (w : World) :
    built_by_class pf self ->
    built_by_class pf (fst (fst (run pf check self w))).

(** A text made of whitespace only. *)
Fixpoint all_space (s : string) : bool :=
  match s with
  | EmptyString => true
  | String c s' => isspace c && all_space s'
  end.

(** A platform on which the shell itself cannot be spawned. *)
Definition no_shell_platform : Platform :=
  mkPlatform sample_clock
    (fun _ fs => (SpawnNotFound "[Errno 2] No such file or directory: '/bin/sh'", fs))
    (fun _ => None).

(** A platform on which spawning fails for want of memory. *)
Definition exhausted_platform : Platform :=
  mkPlatform sample_clock
    (fun _ fs => (SpawnFault "[Errno 12] Cannot allocate memory", fs))
    (fun _ => None).

(** A platform whose shell exits with status 2 and prints only blank
    lines on stdout. *)
Definition blank_platform : Platform :=
  mkPlatform sample_clock
    (fun _ fs => (Exited 2 (String LF (String LF "")) "", fs))
    (fun _ => None).

(** The [str] of the [IOError] of a failure, when it is one. *)
Definition io_strerror (f : failure) : option string :=
  match f with
  | AtOpen e => Some e
  | AtWrite e _ _ => Some e
  | NotIOError _ => None
  end.

(** The world after the [try] body failed on [path] while writing
    [text]: [open] was called, and when the failure came with the write
    the file exists and holds what it held and the part of [text] that
    got through. *)
Definition after_failure (path text : string) (f : failure) (w : World)
    : World :=
  match f with
  | AtWrite e existing partial =>
      mkWorld (console w)
              (<[path := Refuses (AtWrite e
                                    (Some (default EmptyString existing
                                           +:+ String.substring 0 partial text))
                                    0)]> (files w))
              (ticks w) (spawned w) (opened w ++ [path]) (uncaught w)
  | _ => note_open path w
  end.

(** A world where ["build.log"] does not exist yet and the device is
    full: the file can be created, a write to it fails. *)
Definition full_world : World :=
  mkWorld []
    {[ "build.log" :=
         Refuses (AtWrite "[Errno 28] No space left on device" None 0) ]}
    0 [] [] [].

(** A world with a path that holds a NUL character, on which [open]
    raises [ValueError]. *)
Definition nul_path : string := "build" +:+ String (ascii_of_nat 0) ".log".

Definition nul_world : World :=
  mkWorld [] {[ nul_path := Refuses (NotIOError "embedded null byte") ]}
    0 [] [] [].

(** * Properties *)

Lemma log_body pf self content w :
  log pf self content w =
  if below_level self then w else
  let '(formatted_content, w1) := _format_content pf self content w in
  let '(t, w2) := datetime_now pf w1 in
  let plain_content_for_file := plain_line (strftime t) (type self) content in
  let w3 := print formatted_content w2 in
  match log_file_path self with
  | Some path =>
      if str_truthy path then
        match append_file path plain_content_for_file w3 with
        | (Written, w4) => w4
        | (RaisedIOError e, w4) =>
            log pf (Log_init ERROR (log_level self) None)
              ("Failed to write to log file '" +:+ path +:+ "': " +:+ e) w4
        | (RaisedOther msg, w4) => propagate msg w4
        end
      else w3
  | None => w3
  end.
Proof.
  funelim (log pf self content w); clear Heqcall;
    repeat match goal with
           | H : @eq (sigma _) _ _ |- _ => clear H
           end;
    repeat match goal with
           | H : below_level _ = _ |- _ => rewrite H; clear H
           | H : log_file_path _ = _ |- _ => rewrite H; clear H
           end;
    try reflexivity;
    unfold _format_content, datetime_now; cbn zeta iota beta;
    repeat match goal with
           | H : str_truthy _ = _ |- _ => rewrite H; clear H
           end;
    try reflexivity;
    match goal with
    | H : append_file _ _ _ = _ |- _ => simpl in H |- *; rewrite H
    end; reflexivity.
Qed.

Section LogFacts.
Variable pf : Platform.

Lemma severity_of_colored_line ty ts content :
  severity_of_line (colored_line ty ts content) = Some ty.
Proof. destruct ty; reflexivity. Qed.

Lemma colored_line_severity_inj ty1 ty2 ts1 ts2 c1 c2 :
  colored_line ty1 ts1 c1 = colored_line ty2 ts2 c2 -> ty1 = ty2.
Proof.
  intros H. apply (f_equal severity_of_line) in H.
  rewrite !severity_of_colored_line in H. congruence.
Qed.

Lemma below_level_spec self :
  below_level self = true <-> value (type self) < value (log_level self).
Proof. unfold below_level. apply Z.ltb_lt. Qed.

Lemma below_level_false self :
  below_level self = false <-> value (log_level self) <= value (type self).
Proof. unfold below_level. apply Z.ltb_ge. Qed.

Lemma log_below self content w :
  below_level self = true -> log pf self content w = w.
Proof. intros H. rewrite log_body, H. reflexivity. Qed.

(** A logger without a usable path only prints. *)
Lemma log_no_file self content w :
  below_level self = false ->
  opt_truthy (log_file_path self) = false ->
  log pf self content w = emitted pf (type self) content w.
Proof.
  intros Hlvl Hpath. rewrite log_body, Hlvl.
  unfold _format_content, datetime_now, emitted, colored_line, print; simpl.
  destruct (log_file_path self) as [path|]; simpl in *.
  - rewrite Hpath. destruct self as [[] ? ?]; reflexivity.
  - destruct self as [[] ? ?]; reflexivity.
Qed.

(** The three ways a call that passes the filter and has a path ends. *)
Lemma log_with_file self content w path :
  below_level self = false ->
  log_file_path self = Some path ->
  str_truthy path = true ->
  log pf self content w =
  let w3 := emitted pf (type self) content w in
  match append_file path
          (plain_line (strftime (clock pf (S (ticks w)))) (type self) content)
          w3 with
  | (Written, w4) => w4
  | (RaisedIOError e, w4) =>
      log pf (Log_init ERROR (log_level self) None) (failure_report path e) w4
  | (RaisedOther msg, w4) => propagate msg w4
  end.
Proof.
  intros Hlvl Hpath Htruthy. rewrite log_body, Hlvl, Hpath.
  unfold _format_content, datetime_now; cbn zeta iota beta.
  rewrite Htruthy.
  replace (print _ _) with (emitted pf (type self) content w)
    by (destruct self as [[] ? ?]; reflexivity).
  reflexivity.
Qed.
End LogFacts.

Section FileFacts.
Lemma append_file_spec path text w :
  append_file path text w =
  match files w !! path with
  | Some (Refuses f) =>
      (match f with
       | NotIOError msg => RaisedOther msg
       | AtOpen e | AtWrite e _ _ => RaisedIOError e
       end, after_failure path text f w)
  | _ => (Written, appended path text w)
  end.
Proof.
  unfold append_file, appended, after_failure, note_open, file_text; simpl.
  destruct (files w !! path) as [[old|[e|e ex n|m]]|]; reflexivity.
Qed.
End FileFacts.

Section LogOutcomes.
Variable pf : Platform.

Lemma after_failure_console path text f w :
  console (after_failure path text f w) = console w.
Proof. destruct f as [e|e ex n|m]; reflexivity. Qed.

Lemma after_failure_ticks path text f w :
  ticks (after_failure path text f w) = ticks w.
Proof. destruct f as [e|e ex n|m]; reflexivity. Qed.

Lemma after_failure_spawned path text f w :
  spawned (after_failure path text f w) = spawned w.
Proof. destruct f as [e|e ex n|m]; reflexivity. Qed.

Lemma after_failure_opened path text f w :
  opened (after_failure path text f w) = (opened w ++ [path])%list.
Proof. destruct f as [e|e ex n|m]; reflexivity. Qed.

Lemma after_failure_uncaught path text f w :
  uncaught (after_failure path text f w) = uncaught w.
Proof. destruct f as [e|e ex n|m]; reflexivity. Qed.

(** The error logger of line 106 never reaches [open]. *)
Lemma error_logger_log lvl msg w :
  log pf (Log_init ERROR lvl None) msg w =
  if value ERROR <? value lvl then w else emitted pf ERROR msg w.
Proof.
  destruct (value ERROR <? value lvl) eqn:E.
  - apply log_below. exact E.
  - apply (log_no_file pf (Log_init ERROR lvl None)); [exact E | reflexivity].
Qed.

(** A write that succeeds. *)
Lemma log_write_ok self content w path :
  below_level self = false ->
  log_file_path self = Some path ->
  str_truthy path = true ->
  (forall e, files w !! path <> Some (Refuses e)) ->
  log pf self content w =
  appended path
    (plain_line (strftime (clock pf (S (ticks w)))) (type self) content)
    (emitted pf (type self) content w).
Proof.
  intros Hlvl Hpath Htr Hok.
  rewrite (log_with_file pf self content w path Hlvl Hpath Htr).
  cbn zeta. rewrite append_file_spec. simpl.
  destruct (files w !! path) as [[old|f]|] eqn:E; try reflexivity.
  exfalso. exact (Hok f eq_refl).
Qed.

(** A write that [open] refuses with an [IOError]. *)
Lemma log_write_fails self content w path (e : string) :
  below_level self = false ->
  log_file_path self = Some path ->
  str_truthy path = true ->
  files w !! path = Some (Refuses e) ->
  log pf self content w =
  let w4 := note_open path (emitted pf (type self) content w) in
  if value ERROR <? value (log_level self) then w4
  else emitted pf ERROR (failure_report path e) w4.
Proof.
  intros Hlvl Hpath Htr Hno.
  rewrite (log_with_file pf self content w path Hlvl Hpath Htr).
  cbn zeta. rewrite append_file_spec. simpl. rewrite Hno.
  apply error_logger_log.
Qed.

(** A write that fails with an [IOError], wherever it is raised. *)
Lemma log_io_failure self content w path f e :
  below_level self = false ->
  log_file_path self = Some path ->
  str_truthy path = true ->
  files w !! path = Some (Refuses f) ->
  io_strerror f = Some e ->
  log pf self content w =
  let w4 := after_failure path
              (plain_line (strftime (clock pf (S (ticks w)))) (type self)
                 content)
              f (emitted pf (type self) content w) in
  if value ERROR <? value (log_level self) then w4
  else emitted pf ERROR (failure_report path e) w4.
Proof.
  intros Hlvl Hpath Htr Hno Hio.
  rewrite (log_with_file pf self content w path Hlvl Hpath Htr).
  cbn zeta. rewrite append_file_spec. simpl. rewrite Hno.
  destruct f as [e'|e' ex|m]; simpl in Hio; try discriminate;
    injection Hio as ->; apply error_logger_log.
Qed.

(** An exception of [open] that is not an [IOError] is not caught. *)
Lemma log_not_io_error self content w path msg :
  below_level self = false ->
  log_file_path self = Some path ->
  str_truthy path = true ->
  files w !! path = Some (Refuses (NotIOError msg)) ->
  log pf self content w =
  propagate msg (note_open path (emitted pf (type self) content w)).
Proof.
  intros Hlvl Hpath Htr Hno.
  rewrite (log_with_file pf self content w path Hlvl Hpath Htr).
  cbn zeta. rewrite append_file_spec. simpl. rewrite Hno. reflexivity.
Qed.
End LogOutcomes.

(** ** C1: the level filter *)

(** C1. With the order DEBUG < INFO < WARNING < ERROR < SUCCESS on
    severities, [log] of a logger of severity S and minimum level L puts
    the message on the console if and only if S >= L; when S < L the call
    leaves the whole world (console, files, clock) as it was. *)
Theorem C1_log_emits_iff_at_or_above_level :
  forall (pf : Platform) (self : Log) (content : string) (w : World),
    (value DEBUG < value INFO /\ value INFO < value WARNING
     /\ value WARNING < value ERROR /\ value ERROR < value SUCCESS)
    /\ ((exists rest,
           console (log pf self content w) =
           (console w
            ++ colored_line (type self) (strftime (clock pf (ticks w))) content
               :: rest)%list)
        <-> value (log_level self) <= value (type self))
    /\ (value (type self) < value (log_level self) ->
        log pf self content w = w).
Proof.
  intros pf self content w. split; [simpl; lia|]. split.
  - split.
    + intros [rest Hrest].
      destruct (below_level self) eqn:E; [|apply below_level_false; exact E].
      rewrite (log_below pf self content w E) in Hrest.
      apply (f_equal (@List.length string)) in Hrest.
      rewrite length_app in Hrest. simpl in Hrest. lia.
    + intros Hge. apply below_level_false in Hge.
      destruct (opt_truthy (log_file_path self)) eqn:Hp.
      * destruct (log_file_path self) as [path|] eqn:Hpath; [|discriminate].
        simpl in Hp.
        destruct (files w !! path) as [[old|f]|] eqn:Hf.
        -- rewrite (log_write_ok pf self content w path Hge Hpath Hp)
             by (intros e; congruence).
           exists []. reflexivity.
        -- destruct (io_strerror f) as [e|] eqn:Hio.
           ++ rewrite (log_io_failure pf self content w path f e
                         Hge Hpath Hp Hf Hio).
              cbn zeta. destruct (value ERROR <? value (log_level self)).
              ** exists []. rewrite after_failure_console. reflexivity.
              ** eexists. cbn [emitted console].
                 rewrite after_failure_console. cbn [emitted console].
                 rewrite <- app_assoc. reflexivity.
           ++ destruct f as [e|e ex|msg]; try discriminate Hio.
              rewrite (log_not_io_error pf self content w path msg
                         Hge Hpath Hp Hf).
              exists []. reflexivity.
        -- rewrite (log_write_ok pf self content w path Hge Hpath Hp)
             by (intros e; congruence).
           exists []. reflexivity.
      * rewrite (log_no_file pf self content w Hge Hp). exists []. reflexivity.
  - intros Hlt. apply log_below. apply below_level_spec. exact Hlt.
Qed.

Lemma C1_log_emits_iff_at_or_above_level_witness :
  log quiet_platform (mkLog DEBUG INFO (Some "build.log")) "x" empty_world
  = empty_world
  /\ console (log quiet_platform (mkLog ERROR INFO None) "x" empty_world)
     = [colored_line ERROR "2024-03-07 09:05:00" "x"].
Proof.
  split.
  - apply (C1_log_emits_iff_at_or_above_level quiet_platform
             (mkLog DEBUG INFO (Some "build.log")) "x" empty_world).
    simpl. lia.
  - reflexivity.
Defined.

(** ** C4 and C9: a log file that cannot be written *)

(** C4 (as amended). When the write to the configured log file fails
    with an [IOError], whether [open] raises it or the write or the closing
    of the file does, the failure is consumed inside [log]: nothing leaves
    the call uncaught, and the console holds the message's own line
    followed, when the minimum level is at most ERROR, by one ERROR line of
    a secondary logger that names the path and the error.  When the
    minimum level is SUCCESS the secondary logger is filtered like any
    other and nothing is reported.  An exception of [open] that is not an
    [IOError] is not caught: it leaves the call, after the message's own
    line, with no report. *)
Theorem C4_write_failure_is_absorbed :
  forall (pf : Platform) (self : Log) (content : string) (w : World)
         (path : string) (f : failure),
    value (log_level self) <= value (type self) ->
    log_file_path self = Some path ->
    str_truthy path = true ->
    files w !! path = Some (Refuses f) ->
    let w' := log pf self content w in
    let own := colored_line (type self) (strftime (clock pf (ticks w))) content in
    (forall e : string,
        io_strerror f = Some e ->
        uncaught w' = uncaught w
        /\ (value (log_level self) <= value ERROR ->
            console w' =
            (console w
             ++ [own;
                 colored_line ERROR (strftime (clock pf (S (S (ticks w)))))
                   (failure_report path e)])%list)
        /\ (value ERROR < value (log_level self) ->
            console w' = (console w ++ [own])%list))
    /\ (forall msg : string,
          f = NotIOError msg ->
          uncaught w' = (uncaught w ++ [msg])%list
          /\ console w' = (console w ++ [own])%list).
Proof.
  intros pf self content w path f Hge Hpath Htr Hno w' own.
  apply below_level_false in Hge. split.
  - intros e Hio. subst w'.
    rewrite (log_io_failure pf self content w path f e Hge Hpath Htr Hno Hio).
    cbn zeta. split; [|split].
    + destruct (value ERROR <? value (log_level self));
        cbn [emitted uncaught]; rewrite after_failure_uncaught; reflexivity.
    + intros Hle. apply Z.ltb_ge in Hle. rewrite Hle.
      cbn [emitted console ticks].
      rewrite after_failure_console, after_failure_ticks.
      cbn [emitted console ticks]. rewrite <- app_assoc. reflexivity.
    + intros Hlt. apply Z.ltb_lt in Hlt. rewrite Hlt.
      rewrite after_failure_console. reflexivity.
  - intros msg ->. subst w'.
    rewrite (log_not_io_error pf self content w path msg Hge Hpath Htr Hno).
    split; reflexivity.
Qed.

Lemma C4_write_failure_is_absorbed_witness :
  let w' := log quiet_platform (mkLog WARNING INFO (Some "build.log"))
              "disk?" full_world in
  uncaught w' = []
  /\ map severity_of_line (console w') = [Some WARNING; Some ERROR].
Proof.
  destruct (C4_write_failure_is_absorbed quiet_platform
              (mkLog WARNING INFO (Some "build.log")) "disk?"
              full_world "build.log"
              (AtWrite "[Errno 28] No space left on device" None 0)
              ltac:(simpl; lia) eq_refl eq_refl eq_refl) as [Hio _].
  destruct (Hio "[Errno 28] No space left on device" eq_refl)
    as (Hu & Hc & _).
  split; [exact Hu|].
  rewrite (Hc ltac:(simpl; lia)). reflexivity.
Defined.

(** C4 as stated fails twice.  With minimum level SUCCESS a SUCCESS
    message whose write fails is printed, [open] is tried once and
    refused, and no line of ERROR severity reaches the console: the
    failure is caught and not reported.  With a path that holds a NUL
    character [open] raises [ValueError], which is no [IOError]: the
    exception leaves [log], and nothing is reported either. *)
Lemma C4_counterexample :
  (let self := mkLog SUCCESS SUCCESS (Some "/ro/build.log") in
   let w' := log quiet_platform self "done" locked_world in
   files locked_world !! "/ro/build.log"
   = Some (Refuses "[Errno 13] Permission denied: '/ro/build.log'")
   /\ opened w' = ["/ro/build.log"]
   /\ console w' = [colored_line SUCCESS "2024-03-07 09:05:00" "done"]
   /\ ~ In (Some ERROR) (map severity_of_line (console w')))
  /\ (let self := mkLog INFO DEBUG (Some nul_path) in
      let w' := log quiet_platform self "start" nul_world in
      files nul_world !! nul_path
      = Some (Refuses (NotIOError "embedded null byte"))
      /\ opened w' = [nul_path]
      /\ uncaught w' = ["embedded null byte"]
      /\ console w' = [colored_line INFO "2024-03-07 09:05:00" "start"]
      /\ ~ In (Some ERROR) (map severity_of_line (console w'))).
Proof.
  split; cbv zeta.
  - rewrite (log_write_fails quiet_platform
               (mkLog SUCCESS SUCCESS (Some "/ro/build.log"))
               "done" locked_world "/ro/build.log"
               "[Errno 13] Permission denied: '/ro/build.log'"
               eq_refl eq_refl eq_refl eq_refl).
    repeat split.
    simpl. intros [H|[]]. discriminate H.
  - rewrite (log_not_io_error quiet_platform
               (mkLog INFO DEBUG (Some nul_path))
               "start" nul_world nul_path "embedded null byte"
               eq_refl eq_refl eq_refl eq_refl).
    repeat split.
    simpl. intros [H|[]]. discriminate H.
Qed.

(** C9. The logger that reports a failed write is built with no file
    path: its [log] is the console-only branch (no [open], no file
    changed, no further call of [log]), so a call of [log] whose write
    fails tries [open] exactly once, and the recursion measure of the
    reporting logger is zero. *)
Theorem C9_failure_report_writes_no_file :
  forall (pf : Platform) (self : Log) (content : string) (w : World)
         (path e : string),
    value (log_level self) <= value (type self) ->
    log_file_path self = Some path ->
    str_truthy path = true ->
    files w !! path = Some (Refuses e) ->
    let error_logger := Log_init ERROR (log_level self) None in
    log_file_path error_logger = None
    /\ file_budget error_logger = 0%nat
    /\ (forall msg w0,
          log pf error_logger msg w0 =
          (if value ERROR <? value (log_level self) then w0
           else emitted pf ERROR msg w0)
          /\ opened (log pf error_logger msg w0) = opened w0
          /\ files (log pf error_logger msg w0) = files w0)
    /\ opened (log pf self content w) = (opened w ++ [path])%list
    /\ files (log pf self content w) = files w.
Proof.
  intros pf self content w path e Hge Hpath Htr Hno error_logger.
  apply below_level_false in Hge.
  split; [reflexivity|]. split; [reflexivity|]. split; [|split].
  - intros msg w0. subst error_logger. rewrite error_logger_log.
    destruct (value ERROR <? value (log_level self)); repeat split.
  - rewrite (log_write_fails pf self content w path e Hge Hpath Htr Hno).
    cbn zeta. destruct (value ERROR <? value (log_level self)); reflexivity.
  - rewrite (log_write_fails pf self content w path e Hge Hpath Htr Hno).
    cbn zeta. destruct (value ERROR <? value (log_level self)); reflexivity.
Qed.

Lemma C9_failure_report_writes_no_file_witness :
  opened (log quiet_platform (mkLog WARNING INFO (Some "/ro/build.log"))
            "disk?" locked_world) = ["/ro/build.log"].
Proof.
  apply (C9_failure_report_writes_no_file quiet_platform
           (mkLog WARNING INFO (Some "/ro/build.log")) "disk?" locked_world
           "/ro/build.log" "[Errno 13] Permission denied: '/ro/build.log'"
           ltac:(simpl; lia) eq_refl eq_refl eq_refl).
Defined.

(** ** What a run does, message by message *)

Section RunFacts.
Variable pf : Platform.

Lemma set_logger_type_twice a b self :
  set_logger_type a (set_logger_type b self) = set_logger_type a self.
Proof. reflexivity. Qed.

Lemma log_all_app l m1 m2 w :
  log_all pf l (m1 ++ m2) w = log_all pf l m2 (log_all pf l m1 w).
Proof. unfold log_all. apply fold_left_app. Qed.

(** [run] is its first message, the spawn, and then the messages chosen
    by the outcome; the object keeps the type of the last one. *)
Lemma run_spec check self w :
  run pf check self w =
  let w0 := log_as pf (logger self) INFO (snd (running_message self)) w in
  let '(r, w1) := subprocess_run pf (full_command self) check w0 in
  (set_logger_type (last_type (running_message self :: run_messages pf self r))
                   self,
   r, log_all pf (logger self) (run_messages pf self r) w1).
Proof.
  unfold run, bind, Log_log, ret, log_as, running_message.
  change (full_command (set_logger_type INFO self)) with (full_command self).
  cbn [snd logger set_logger_type].
  destruct (subprocess_run pf (full_command self) check _) as [r w1].
  destruct r as [[rc cmd out err|msg|msg]|result]; cbn [run_messages].
  - unfold captured_messages, last_type.
    destruct (str_truthy out), (str_truthy err); reflexivity.
  - reflexivity.
  - reflexivity.
  - unfold status_message, captured_messages, last_type.
    destruct (returncode result =? 0), (str_truthy (stdout result)),
      (str_truthy (stderr result)); reflexivity.
Qed.
End RunFacts.

Section Frames.
Variable pf : Platform.

(** Every way a call of [log] can end. *)
Lemma log_cases self content w :
  let w1 := emitted pf (type self) content w in
  log pf self content w = w
  \/ log pf self content w = w1
  \/ (exists path text, log pf self content w = appended path text w1)
  \/ (exists path text f,
        log pf self content w = after_failure path text f w1)
  \/ (exists path text f msg,
        log pf self content w
        = emitted pf ERROR msg (after_failure path text f w1))
  \/ (exists path msg,
        log pf self content w = propagate msg (note_open path w1)).
Proof.
  intros w1. subst w1.
  destruct (below_level self) eqn:Hlvl.
  { left. apply log_below. exact Hlvl. }
  destruct (opt_truthy (log_file_path self)) eqn:Hp.
  2:{ right; left. apply log_no_file; assumption. }
  destruct (log_file_path self) as [path|] eqn:Hpath; [|discriminate].
  simpl in Hp.
  destruct (files w !! path) as [[old|f]|] eqn:Hf.
  - right; right; left. eexists _, _.
    apply log_write_ok with (path := path); try assumption.
    intros e; congruence.
  - destruct (io_strerror f) as [e|] eqn:Hio.
    + rewrite (log_io_failure pf self content w path f e Hlvl Hpath Hp Hf Hio).
      cbn zeta. destruct (value ERROR <? value (log_level self)).
      * right; right; right; left. eexists _, _, _. reflexivity.
      * right; right; right; right; left. eexists _, _, _, _. reflexivity.
    + destruct f as [e|e ex|msg]; try discriminate Hio.
      rewrite (log_not_io_error pf self content w path msg Hlvl Hpath Hp Hf).
      right; right; right; right; right. eexists _, _. reflexivity.
  - right; right; left. eexists _, _.
    apply log_write_ok with (path := path); try assumption.
    intros e; congruence.
Qed.

(** [log] never spawns anything. *)
Lemma log_spawned self content w :
  spawned (log pf self content w) = spawned w.
Proof.
  destruct (log_cases self content w)
    as [H|[H|[(p & t & H)|[(p & t & f & H)|[(p & t & f & m & H)|(p & m & H)]]]]];
    rewrite H; cbn [emitted propagate spawned];
    try rewrite after_failure_spawned; reflexivity.
Qed.

Lemma log_all_spawned l msgs w :
  spawned (log_all pf l msgs w) = spawned w.
Proof.
  revert w. induction msgs as [|m msgs IH]; intros w; [reflexivity|].
  simpl. rewrite IH. apply log_spawned.
Qed.

Lemma subprocess_run_spawned cmdline check w :
  spawned (snd (subprocess_run pf cmdline check w))
  = (spawned w ++ [cmdline])%list.
Proof.
  unfold subprocess_run.
  destruct (shell pf cmdline (files w)) as [[rc out err|m|m] fs]; simpl;
    try reflexivity.
  destruct (check && negb (rc =? 0)); reflexivity.
Qed.

(** The one command line a run hands to the shell. *)
Lemma run_spawned check self w :
  spawned (snd (run pf check self w))
  = (spawned w ++ [full_command self])%list.
Proof.
  rewrite run_spec. cbn zeta.
  pose proof (subprocess_run_spawned (full_command self) check
                (log_as pf (logger self) INFO (snd (running_message self)) w))
    as Hs.
  destruct (subprocess_run pf (full_command self) check _) as [r w1].
  simpl in *. rewrite log_all_spawned, Hs. unfold log_as.
  rewrite log_spawned. reflexivity.
Qed.
End Frames.

Section Flags.
Lemma add_flags_add_flags A B self :
  add_flags B (add_flags A self) = add_flags (A ++ B) self.
Proof. unfold add_flags; simpl. rewrite <- app_assoc. reflexivity. Qed.

Lemma flags_fold_add_flags calls self :
  flags (fold_left (fun c fl => add_flags fl c) calls self)
  = (flags self ++ concat calls)%list.
Proof.
  revert self. induction calls as [|fl calls IH]; intros self; simpl.
  - rewrite app_nil_r. reflexivity.
  - rewrite IH. simpl. rewrite <- app_assoc. reflexivity.
Qed.

Lemma command_fold_add_flags calls self :
  command (fold_left (fun c fl => add_flags fl c) calls self) = command self.
Proof.
  revert self. induction calls as [|fl calls IH]; intros self; simpl;
    [reflexivity | rewrite IH; reflexivity].
Qed.

Lemma string_app_assoc (a b c : string) : (a +:+ b) +:+ c = a +:+ (b +:+ c).
Proof.
  induction a as [|x a IH]; [reflexivity|].
  change (String x ((a +:+ b) +:+ c) = String x (a +:+ b +:+ c)).
  rewrite IH. reflexivity.
Qed.

(** Joining a non-empty list after another: one separator in between. *)
Lemma join_app sep (A B : list string) :
  A <> [] -> B <> [] ->
  join sep (A ++ B) = join sep A +:+ sep +:+ join sep B.
Proof.
  intros HA HB. induction A as [|a A IH]; [congruence|].
  destruct A as [|a' A].
  - simpl. destruct B; [congruence | reflexivity].
  - change (join sep ((a :: a' :: A) ++ B))
      with (a +:+ sep +:+ join sep ((a' :: A) ++ B)).
    rewrite IH by discriminate.
    change (join sep (a :: a' :: A)) with (a +:+ sep +:+ join sep (a' :: A)).
    rewrite !string_app_assoc. reflexivity.
Qed.

(** With at least one flag the command line is the base command and
    the flags, all joined by one space. *)
Lemma full_command_join self :
  flags self <> [] ->
  full_command self = join " " (command self :: flags self).
Proof.
  unfold full_command. destruct (flags self); [congruence | reflexivity].
Qed.
End Flags.

(** ** C5 and C10: the command line *)

(** C5. Whatever the base command and the calls of [add_flags], [run]
    hands the shell exactly one command line: the base command, a space,
    and all flags in the order they were added, separated by single spaces
    (with at least one flag this is the join of command and flags by single
    spaces); and adding [A] then [B] leaves the same object as adding
    [A ++ B] at once. *)
Theorem C5_flags_joined_in_order :
  forall (pf : Platform) (check : bool) (base : string)
         (calls : list (list string)) (w : World),
    let self := fold_left (fun c fl => add_flags fl c) calls (Cmd_init base) in
    flags self = concat calls
    /\ spawned (snd (run pf check self w))
       = (spawned w ++ [base +:+ " " +:+ join " " (concat calls)])%list
    /\ (concat calls <> [] ->
        base +:+ " " +:+ join " " (concat calls)
        = join " " (base :: concat calls))
    /\ (forall (A B : list string) (c : Cmd),
          add_flags B (add_flags A c) = add_flags (A ++ B) c
          /\ full_command (add_flags B (add_flags A c))
             = full_command (add_flags (A ++ B) c)).
Proof.
  intros pf check base calls w self.
  assert (Hf : flags self = concat calls).
  { subst self. rewrite flags_fold_add_flags. reflexivity. }
  assert (Hc : command self = base).
  { subst self. rewrite command_fold_add_flags. reflexivity. }
  split; [exact Hf|]. split; [|split].
  - rewrite run_spawned. unfold full_command. rewrite Hf, Hc. reflexivity.
  - intros Hne. destruct (concat calls); [congruence | reflexivity].
  - intros A B c. rewrite add_flags_add_flags. split; reflexivity.
Qed.

Lemma C5_flags_joined_in_order_witness :
  spawned (snd (run quiet_platform false
                  (add_flags ["-o"; "main"] (add_flags ["main.c"] (Cmd_init "cc")))
                  empty_world))
  = ["cc main.c -o main"].
Proof.
  apply (C5_flags_joined_in_order quiet_platform false "cc"
           [["main.c"]; ["-o"; "main"]] empty_world).
Defined.

(** C10. A [Cmd] with no flags hands the shell its base command followed
    by exactly one space. *)
Theorem C10_no_flags_trailing_space :
  forall (pf : Platform) (check : bool) (self : Cmd) (w : World),
    flags self = [] ->
    full_command self = command self +:+ " "
    /\ spawned (snd (run pf check self w))
       = (spawned w ++ [command self +:+ " "])%list.
Proof.
  intros pf check self w Hf.
  assert (E : full_command self = command self +:+ " ").
  { unfold full_command. rewrite Hf. reflexivity. }
  split; [exact E|]. rewrite run_spawned, E. reflexivity.
Qed.

Lemma C10_no_flags_trailing_space_witness :
  spawned (snd (run quiet_platform false (Cmd_init "make") empty_world))
  = ["make "].
Proof.
  apply (C10_no_flags_trailing_space quiet_platform false (Cmd_init "make")
           empty_world eq_refl).
Defined.

Section ClassBuilt.
Variable pf : Platform.

Lemma class_built_init base : class_built (Cmd_init base).
Proof. split; reflexivity. Qed.

Lemma class_built_add_flags fl self :
  class_built self -> class_built (add_flags fl self).
Proof. intros H. exact H. Qed.

Lemma class_built_set_logger_type ty self :
  class_built self -> class_built (set_logger_type ty self).
Proof. intros H. exact H. Qed.

Lemma class_built_run check self w :
  class_built self -> class_built (fst (fst (run pf check self w))).
Proof.
  intros H. rewrite run_spec. cbn zeta.
  destruct (subprocess_run pf (full_command self) check _) as [r w1].
  exact H.
Qed.

(** The logger of a class-built [Cmd] prints every message and touches
    no file. *)
Lemma class_built_log_as self ty content w :
  class_built self ->
  log_as pf (logger self) ty content w = emitted pf ty content w.
Proof.
  intros [Hl Hp]. unfold log_as. rewrite Hl, Hp.
  apply (log_no_file pf (mkLog ty DEBUG None)); [|reflexivity].
  apply below_level_false. destruct ty; simpl; lia.
Qed.

Lemma class_built_log_all self msgs w :
  class_built self ->
  log_all pf (logger self) msgs w =
  mkWorld (console w ++ render_from pf (ticks w) msgs) (files w)
          (ticks w + 2 * length msgs) (spawned w) (opened w) (uncaught w).
Proof.
  intros H. revert w. induction msgs as [|[ty c] msgs IH]; intros w.
  - simpl. rewrite app_nil_r, Nat.add_0_r. destruct w; reflexivity.
  - change (log_all pf (logger self) ((ty, c) :: msgs) w)
      with (log_all pf (logger self) msgs (log_as pf (logger self) ty c w)).
    rewrite (class_built_log_as self ty c w H), IH. unfold emitted.
    cbn [console files ticks spawned opened render_from].
    rewrite <- app_assoc. f_equal. simpl. lia.
Qed.

Lemma subprocess_run_eq cmdline check w :
  subprocess_run pf cmdline check w =
  (run_outcome check cmdline (fst (shell pf cmdline (files w))),
   mkWorld (console w) (snd (shell pf cmdline (files w))) (ticks w)
           (spawned w ++ [cmdline]) (opened w) (uncaught w)).
Proof.
  unfold subprocess_run, run_outcome.
  destruct (shell pf cmdline (files w)) as [[rc out err|m|m] fs]; simpl;
    try reflexivity.
  destruct (check && negb (rc =? 0)); reflexivity.
Qed.

(** A run of a class-built [Cmd]: the outcome is decided by the shell on
    the files as they were, the console gains the first message and
    those of the outcome, two clock readings apart, and the object keeps
    the type of the last message. *)
Lemma run_class_built check self w :
  class_built self ->
  let r := run_outcome check (full_command self)
             (fst (shell pf (full_command self) (files w))) in
  let msgs := running_message self :: run_messages pf self r in
  fst (run pf check self w) = (set_logger_type (last_type msgs) self, r)
  /\ console (snd (run pf check self w))
     = (console w ++ render_from pf (ticks w) msgs)%list.
Proof.
  intros H r msgs. rewrite run_spec. cbn zeta.
  rewrite (class_built_log_as self INFO _ w H), subprocess_run_eq.
  cbn [emitted files fst snd console ticks spawned opened].
  fold r. rewrite (class_built_log_all self _ _ H).
  cbn [fst snd console ticks]. split; [reflexivity|].
  subst msgs. rewrite <- app_assoc. reflexivity.
Qed.

Lemma render_from_app k m1 m2 :
  render_from pf k (m1 ++ m2)
  = (render_from pf k m1 ++ render_from pf (k + 2 * length m1) m2)%list.
Proof.
  revert k. induction m1 as [|[ty c] m1 IH]; intros k; simpl.
  - rewrite Nat.add_0_r. reflexivity.
  - rewrite IH. do 3 f_equal. lia.
Qed.

Lemma map_severity_render_from k msgs :
  map severity_of_line (render_from pf k msgs) = map (fun m => Some (fst m)) msgs.
Proof.
  revert k. induction msgs as [|[ty c] msgs IH]; intros k; simpl;
    [reflexivity|].
  rewrite severity_of_colored_line, IH. reflexivity.
Qed.
End ClassBuilt.

(** ** C6: the captured streams of a run that returns *)

(** C6. When [run] returns, it has called the logger, after the status
    message, with type INFO on ["--- STDOUT ---"], a newline and the
    stripped stdout if stdout is non-empty, and then with type ERROR on
    ["--- STDERR ---"], a newline and the stripped stderr if stderr is
    non-empty; for a [Cmd] as the class builds it these are the last
    entries of the console, after the two entries every returning run
    prints. *)
Theorem C6_streams_logged_at_INFO_and_ERROR :
  forall (pf : Platform) (check : bool) (self self' : Cmd)
         (result : CompletedProcess) (w w' : World),
    run pf check self w = (self', inr result, w') ->
    let out_msgs :=
      if str_truthy (stdout result)
      then [(INFO, "--- STDOUT ---" +:+ String LF (strip (stdout result)))]
      else [] in
    let err_msgs :=
      if str_truthy (stderr result)
      then [(ERROR, "--- STDERR ---" +:+ String LF (strip (stderr result)))]
      else [] in
    (exists w2 : World,
        w' = log_all pf (logger self) (out_msgs ++ err_msgs) w2)
    /\ (class_built self ->
        console w' =
        (console w
         ++ render_from pf (ticks w)
              [running_message self; status_message self result]
         ++ render_from pf (ticks w + 4) (out_msgs ++ err_msgs))%list).
Proof.
  intros pf check self self' result w w' Hrun out_msgs err_msgs. split.
  - rewrite run_spec in Hrun. cbn zeta in Hrun.
    destruct (subprocess_run pf (full_command self) check _) as [r w1].
    injection Hrun as _ Hr Hw. subst r. cbn [run_messages] in Hw.
    exists (log_as pf (logger self) (fst (status_message self result))
              (snd (status_message self result)) w1).
    rewrite <- Hw. reflexivity.
  - intros Hcb.
    destruct (run_class_built pf check self w Hcb) as [Ho Hc].
    rewrite Hrun in Ho, Hc. cbn [fst snd] in Ho, Hc.
    injection Ho as _ Hr. rewrite <- Hr in Hc. cbn [run_messages] in Hc.
    rewrite Hc.
    change (running_message self :: status_message self result
            :: captured_messages INFO ERROR (stdout result) (stderr result))
      with ([running_message self; status_message self result]
            ++ captured_messages INFO ERROR (stdout result) (stderr result))%list.
    rewrite render_from_app. reflexivity.
Qed.

Lemma C6_streams_logged_at_INFO_and_ERROR_witness :
  map severity_of_line
    (console (snd (run chatty_platform false (Cmd_init "./hello") empty_world)))
  = [Some INFO; Some SUCCESS; Some INFO; Some ERROR]
  /\ List.last (console (snd (run chatty_platform false (Cmd_init "./hello")
                              empty_world))) EmptyString
     = colored_line ERROR "2024-03-07 09:05:06"
         ("--- STDERR ---" +:+ String LF "warning: unused").
Proof.
  destruct (C6_streams_logged_at_INFO_and_ERROR chatty_platform false
              (Cmd_init "./hello")
              (fst (fst (run chatty_platform false (Cmd_init "./hello") empty_world)))
              (mkCompletedProcess "./hello " 0 ("hi" +:+ String LF "")
                 "warning: unused")
              empty_world
              (snd (run chatty_platform false (Cmd_init "./hello") empty_world))
              eq_refl) as [_ Hc].
  rewrite (Hc (class_built_init "./hello")). split; reflexivity.
Defined.

(** ** C2: a failing command under [check_returncode] *)

(** C2 (as amended). With [check_returncode] true and a command that
    exits with a non-zero status, [run] of a class-built [Cmd] raises
    [CalledProcessError] to the caller after printing, at ERROR severity,
    the message "failed with error" and then the non-empty captured
    streams; the status message of severity WARNING is not printed. *)
Theorem C2_check_failure_raises_after_ERROR_lines :
  forall (pf : Platform) (self : Cmd) (w : World) (rc : Z)
         (out err : string) (fs' : gmap string fnode),
    class_built self ->
    shell pf (full_command self) (files w) = (Exited rc out err, fs') ->
    rc <> 0 ->
    let e := CalledProcessError rc (full_command self) out err in
    let new :=
      render_from pf (ticks w)
        ([running_message self;
          (ERROR, "Command '" +:+ command self +:+ "' failed with error: "
                  +:+ exn_str pf e)]
         ++ (if str_truthy out
             then [(ERROR, "--- STDOUT ---" +:+ String LF (strip out))]
             else [])
         ++ (if str_truthy err
             then [(ERROR, "--- STDERR ---" +:+ String LF (strip err))]
             else [])) in
    fst (run pf true self w) = (set_logger_type ERROR self, inl e)
    /\ console (snd (run pf true self w)) = (console w ++ new)%list
    /\ ~ In (Some WARNING) (map severity_of_line new).
Proof.
  intros pf self w rc out err fs' Hcb Hsh Hrc e new.
  destruct (run_class_built pf true self w Hcb) as [Ho Hc].
  rewrite Hsh in Ho, Hc. cbn [fst run_outcome] in Ho, Hc.
  assert (Hnz : (rc =? 0) = false) by (apply Z.eqb_neq; exact Hrc).
  rewrite Hnz in Ho, Hc. cbn [andb negb run_messages] in Ho, Hc.
  split; [|split].
  - rewrite Ho. f_equal. f_equal.
    unfold last_type, captured_messages.
    destruct (str_truthy out), (str_truthy err); reflexivity.
  - rewrite Hc. reflexivity.
  - subst new. rewrite map_severity_render_from.
    destruct (str_truthy out), (str_truthy err); simpl; intuition discriminate.
Qed.

Lemma C2_check_failure_raises_after_ERROR_lines_witness :
  snd (fst (run failing_platform true (add_flags ["main.c"] (Cmd_init "cc"))
              empty_world))
  = inl (CalledProcessError 1 "cc main.c" ""
           ("main.c:1: error: expected ';'" +:+ String LF "")).
Proof.
  destruct (C2_check_failure_raises_after_ERROR_lines failing_platform
              (add_flags ["main.c"] (Cmd_init "cc")) empty_world 1 ""
              ("main.c:1: error: expected ';'" +:+ String LF "") ∅
              (class_built_init "cc") eq_refl ltac:(discriminate)) as [Ho _].
  rewrite Ho. reflexivity.
Defined.

(** C2 as stated fails: under [check_returncode] a command that exits with
    status 1 makes [run] raise, and the console then holds one INFO entry
    and two ERROR entries; no entry has severity WARNING and none says
    "exited with code". *)
Lemma C2_counterexample :
  let '(self', r, w') :=
    run failing_platform true (add_flags ["main.c"] (Cmd_init "cc")) empty_world in
  r = inl (CalledProcessError 1 "cc main.c" ""
             ("main.c:1: error: expected ';'" +:+ String LF ""))
  /\ console w' =
     [colored_line INFO "2024-03-07 09:05:00" "Running command: 'cc main.c'...";
      colored_line ERROR "2024-03-07 09:05:02"
        "Command 'cc' failed with error: Command 'cc main.c' returned non-zero exit status 1.";
      colored_line ERROR "2024-03-07 09:05:04"
        ("--- STDERR ---" +:+ String LF "main.c:1: error: expected ';'")]
  /\ ~ In (Some WARNING) (map severity_of_line (console w')).
Proof.
  vm_compute. repeat split. intros [H|[H|[H|[]]]]; discriminate H.
Qed.

(** ** C8: the logger's type after a run *)

Section LastMessage.
Variable pf : Platform.

(** [run] starts by setting the type: the one it finds is never read. *)
Lemma run_ignores_type check ty0 self w :
  run pf check (set_logger_type ty0 self) w = run pf check self w.
Proof. reflexivity. Qed.

Lemma last_type_cons m m' msgs :
  last_type (m :: m' :: msgs) = last_type (m' :: msgs).
Proof. reflexivity. Qed.

(** The last console entry of a non-empty batch carries the type of
    the last message. *)
Lemma render_from_last k m msgs :
  exists earlier line,
    render_from pf k (m :: msgs) = (earlier ++ [line])%list
    /\ severity_of_line line = Some (last_type (m :: msgs)).
Proof.
  revert k m. induction msgs as [|m' msgs IH]; intros k [ty c].
  - exists [], (colored_line ty (strftime (clock pf k)) c). split.
    + reflexivity.
    + apply severity_of_colored_line.
  - destruct (IH (S (S k)) m') as (earlier & line & He & Hs).
    exists (colored_line ty (strftime (clock pf k)) c :: earlier), line.
    split.
    + change (render_from pf k ((ty, c) :: m' :: msgs))
        with (colored_line ty (strftime (clock pf k)) c
              :: render_from pf (S (S k)) (m' :: msgs)).
      rewrite He. reflexivity.
    + rewrite last_type_cons. exact Hs.
Qed.

(** The type a run leaves in the logger, by the path taken. *)
Lemma last_type_run_messages self r :
  last_type (running_message self :: run_messages pf self r) =
  match r with
  | inr result =>
      if str_truthy (stderr result) then ERROR
      else if str_truthy (stdout result) then INFO
      else if returncode result =? 0 then SUCCESS
      else WARNING
  | inl _ => ERROR
  end.
Proof.
  destruct r as [[rc cmd out err|m|m]|result]; cbn [run_messages].
  - unfold captured_messages.
    destruct (str_truthy out), (str_truthy err); reflexivity.
  - reflexivity.
  - reflexivity.
  - unfold captured_messages, status_message.
    destruct (str_truthy (stdout result)), (str_truthy (stderr result)),
      (returncode result =? 0); reflexivity.
Qed.
End LastMessage.

(** C8. A run overwrites the type of the [Cmd]'s logger and leaves it
    overwritten: whether [run] returns or raises, the type afterwards is
    that of the last message of the run (ERROR if stderr was non-empty or
    an exception was raised, else INFO if stdout was non-empty, else
    SUCCESS or WARNING by the exit status); it is one of INFO, SUCCESS,
    WARNING, ERROR, the rest of the object is as before, and the type the
    logger had before the call plays no part in the result.  For a [Cmd]
    as the class builds it every message is printed, and the type is the
    severity of the last console entry of the run. *)
Theorem C8_run_leaves_last_severity_in_logger :
  forall (pf : Platform) (check : bool) (self : Cmd) (w : World),
    let self' := fst (fst (run pf check self w)) in
    let r := snd (fst (run pf check self w)) in
    let w' := snd (run pf check self w) in
    type (logger self') =
      match r with
      | inr result =>
          if str_truthy (stderr result) then ERROR
          else if str_truthy (stdout result) then INFO
          else if returncode result =? 0 then SUCCESS
          else WARNING
      | inl _ => ERROR
      end
    /\ In (type (logger self')) [INFO; SUCCESS; WARNING; ERROR]
    /\ self' = set_logger_type (type (logger self')) self
    /\ (forall ty0 : LogType,
          run pf check (set_logger_type ty0 self) w = (self', r, w'))
    /\ (class_built self ->
        exists earlier line,
          console w' = (console w ++ earlier ++ [line])%list
          /\ severity_of_line line = Some (type (logger self'))).
Proof.
  intros pf check self w self' r w'.
  assert (Hself : self' =
            set_logger_type
              (last_type (running_message self :: run_messages pf self r)) self).
  { subst self' r. rewrite run_spec. cbn zeta.
    destruct (subprocess_run pf (full_command self) check _) as [r1 w1].
    reflexivity. }
  assert (Hty : type (logger self') =
                last_type (running_message self :: run_messages pf self r)).
  { rewrite Hself. reflexivity. }
  split; [|split; [|split; [|split]]].
  - rewrite Hty. apply last_type_run_messages.
  - rewrite Hty, last_type_run_messages.
    destruct r as [e|result]; [simpl; tauto|].
    destruct (str_truthy (stderr result)), (str_truthy (stdout result)),
      (returncode result =? 0); simpl; tauto.
  - rewrite Hty. exact Hself.
  - intros ty0. rewrite run_ignores_type. subst self' r w'.
    destruct (run pf check self w) as [[s x] y]. reflexivity.
  - intros Hcb.
    destruct (run_class_built pf check self w Hcb) as [Ho Hc].
    cbn zeta in Ho, Hc.
    assert (Hr : r = run_outcome check (full_command self)
                       (fst (shell pf (full_command self) (files w))))
      by (subst r; rewrite Ho; reflexivity).
    rewrite <- Hr in Hc.
    destruct (render_from_last pf (ticks w) (running_message self)
                (run_messages pf self r)) as (earlier & line & He & Hs).
    exists earlier, line. split.
    + subst w'. rewrite Hc, He. reflexivity.
    + rewrite Hty. exact Hs.
Qed.

Lemma C8_run_leaves_last_severity_in_logger_witness :
  type (logger (Cmd_init "true")) = INFO
  /\ type (logger (fst (fst (run quiet_platform false (Cmd_init "true")
                               empty_world)))) = SUCCESS.
Proof.
  split; [reflexivity|].
  destruct (C8_run_leaves_last_severity_in_logger quiet_platform false
              (Cmd_init "true") empty_world) as (Hty & _).
  rewrite Hty. reflexivity.
Defined.

(** ** C3: an executable the shell cannot find *)

Section NotFound.
Variable pf : Platform.

(** The handler of lines 194-197 does its part when [subprocess.run]
    raises [FileNotFoundError]: one ERROR entry, the exception raised
    again. *)
Lemma run_spawn_not_found check self w msg fs' :
  class_built self ->
  shell pf (full_command self) (files w) = (SpawnNotFound msg, fs') ->
  fst (run pf check self w)
  = (set_logger_type ERROR self, inl (FileNotFoundError msg))
  /\ console (snd (run pf check self w))
     = (console w
        ++ render_from pf (ticks w)
             [running_message self;
              (ERROR, "Command '" +:+ command self
                      +:+ "' not found. Please ensure it is in your PATH.")])%list.
Proof.
  intros Hcb Hsh. destruct (run_class_built pf check self w Hcb) as [Ho Hc].
  rewrite Hsh in Ho, Hc. split; [exact Ho | exact Hc].
Qed.
End NotFound.

(** C3 (what the code does instead). Under a POSIX shell, a run whose
    base executable cannot be found never raises [FileNotFoundError]: the
    shell exits with status 127, so without [check_returncode] the run
    returns that status, and with it the run raises [CalledProcessError];
    the handler for a missing command is not reached. *)
Theorem C3_missing_executable_not_signalled :
  forall (bin : string -> option (string -> Z * string * string))
         (check : bool) (self : Cmd) (w : World),
    bin (first_word (full_command self)) = None ->
    let diagnostic :=
      "/bin/sh: 1: " +:+ first_word (full_command self) +:+ ": not found"
      +:+ String LF "" in
    snd (fst (run (posix_platform bin) check self w)) =
    (if check
     then inl (CalledProcessError 127 (full_command self) "" diagnostic)
     else inr (mkCompletedProcess (full_command self) 127 "" diagnostic))
    /\ (forall msg,
          snd (fst (run (posix_platform bin) check self w))
          <> inl (FileNotFoundError msg)).
Proof.
  intros bin check self w Hbin diagnostic.
  assert (E : snd (fst (run (posix_platform bin) check self w)) =
              if check
              then inl (CalledProcessError 127 (full_command self) "" diagnostic)
              else inr (mkCompletedProcess (full_command self) 127 "" diagnostic)).
  { rewrite run_spec. cbn zeta. rewrite subprocess_run_eq.
    cbn [fst snd]. unfold posix_platform at 1 2. cbn [shell].
    rewrite Hbin. cbn [fst run_outcome]. destruct check; reflexivity. }
  split; [exact E|].
  intros msg. rewrite E. destruct check; discriminate.
Qed.

Lemma C3_missing_executable_not_signalled_witness :
  snd (fst (run (posix_platform (fun _ => None)) false (Cmd_init "nosuchprog")
              empty_world))
  = inr (mkCompletedProcess "nosuchprog " 127 ""
           ("/bin/sh: 1: nosuchprog: not found" +:+ String LF "")).
Proof.
  apply (C3_missing_executable_not_signalled (fun _ => None) false
           (Cmd_init "nosuchprog") empty_world eq_refl).
Defined.

Example missing_executable_console :
  map severity_of_line
    (console (snd (run (posix_platform (fun _ => None)) false
                     (Cmd_init "nosuchprog") empty_world)))
  = [Some INFO; Some WARNING; Some ERROR].
Proof. reflexivity. Qed.

(** ** C7: what reaches the log file *)

Section Texts.
Lemma has_char_app c (a b : string) :
  has_char c (a +:+ b) = has_char c a || has_char c b.
Proof.
  induction a as [|x a IH]; [reflexivity|].
  change (has_char c (String x (a +:+ b))
          = has_char c (String x a) || has_char c b).
  simpl. rewrite IH. apply orb_assoc.
Qed.

Lemma count_char_app c (a b : string) :
  count_char c (a +:+ b) = (count_char c a + count_char c b)%nat.
Proof.
  induction a as [|x a IH]; [reflexivity|].
  change (count_char c (String x (a +:+ b))
          = (count_char c (String x a) + count_char c b)%nat).
  simpl. rewrite IH. lia.
Qed.

Lemma count_char_absent c s : has_char c s = false -> count_char c s = 0%nat.
Proof.
  induction s as [|x s IH]; simpl; [reflexivity|].
  intros H. apply orb_false_iff in H as [Hx Hs]. rewrite Hx, (IH Hs).
  reflexivity.
Qed.

(** A text made of digits holds no other character. *)
Lemma all_digits_has_char c s :
  all_digits s = true -> is_digit c = false -> has_char c s = false.
Proof.
  intros Hs Hc. induction s as [|x s IH]; simpl in *; [reflexivity|].
  apply andb_true_iff in Hs as [Hx Hs]. rewrite (IH Hs), orb_false_r.
  destruct (Ascii.eqb_spec x c) as [->|]; [congruence | reflexivity].
Qed.

Lemma all_digits_app (a b : string) :
  all_digits a = true -> all_digits b = true -> all_digits (a +:+ b) = true.
Proof.
  intros Ha Hb. induction a as [|x a IH]; [exact Hb|].
  simpl in Ha. apply andb_true_iff in Ha as [Hx Ha].
  change (is_digit x && all_digits (a +:+ b) = true).
  rewrite Hx, (IH Ha). reflexivity.
Qed.

Lemma all_digits_zeros k : all_digits (zeros k) = true.
Proof. induction k as [|k IH]; [reflexivity | exact IH]. Qed.

Lemma all_digits_uint d : all_digits (NilEmpty.string_of_uint d) = true.
Proof. induction d; simpl; auto. Qed.

Lemma all_digits_zpad width n : all_digits (zpad width n) = true.
Proof.
  unfold zpad. apply all_digits_app; [apply all_digits_zeros|].
  unfold NilZero.string_of_uint.
  destruct (N.to_uint n); try apply all_digits_uint. reflexivity.
Qed.

(** Every character of a timestamp is a digit or one of [- :] and space. *)
Lemma has_char_strftime c t :
  is_digit c = false ->
  Ascii.eqb "-" c = false -> Ascii.eqb " " c = false ->
  Ascii.eqb ":" c = false ->
  has_char c (strftime t) = false.
Proof.
  intros Hd H1 H2 H3. unfold strftime.
  repeat rewrite has_char_app.
  repeat rewrite (all_digits_has_char c _ (all_digits_zpad _ _) Hd).
  cbn [has_char]. rewrite H1, H2, H3. reflexivity.
Qed.

Lemma has_char_name c ty :
  is_digit c = true \/ Ascii.eqb c ESC = true \/ Ascii.eqb c LF = true ->
  has_char c (_name_ ty) = false.
Proof.
  intros H.
  destruct (has_char c (_name_ ty)) eqn:E; [|reflexivity].
  exfalso.
  assert (Hup : (65 <=? nat_of_ascii c)%nat = true).
  { destruct ty; cbn [_name_ has_char] in E;
      repeat match type of E with
        | (Ascii.eqb ?x c || _) = true =>
            apply orb_true_iff in E as [E|E];
            [apply Ascii.eqb_eq in E; subst c; reflexivity|]
        | false = true => discriminate E
        end. }
  destruct H as [H|[H|H]].
  - unfold is_digit in H. apply andb_true_iff in H as [_ H].
    apply Nat.leb_le in H, Hup. lia.
  - apply Ascii.eqb_eq in H. subst c. discriminate Hup.
  - apply Ascii.eqb_eq in H. subst c. discriminate Hup.
Qed.
End Texts.

Section Timestamps.
Lemma below_in_seq (n : N) (bound : nat) :
  (n < N.of_nat bound)%N -> In (N.to_nat n) (seq 0 bound).
Proof. intros H. apply in_seq. lia. Qed.

Lemma zpad_two_digits n : (n < 100)%N -> two_digits (zpad 2 n) = true.
Proof.
  intros H.
  assert (A : forallb (fun k => two_digits (zpad 2 (N.of_nat k))) (seq 0 100)
              = true) by (vm_compute; reflexivity).
  rewrite forallb_forall in A.
  specialize (A (N.to_nat n) (below_in_seq n 100 H)).
  rewrite N2Nat.id in A. exact A.
Qed.

Lemma zpad_four_digits n : (n < 10000)%N -> four_digits (zpad 4 n) = true.
Proof.
  intros H.
  assert (A : forallb (fun k => four_digits (zpad 4 (N.of_nat k)))
                (seq 0 (N.to_nat 10000)) = true) by (vm_compute; reflexivity).
  rewrite forallb_forall in A.
  assert (Hin : In (N.to_nat n) (seq 0 (N.to_nat 10000)))
    by (apply in_seq; lia).
  specialize (A (N.to_nat n) Hin).
  rewrite N2Nat.id in A. exact A.
Qed.

(** [strftime] of a date [datetime.now()] can return has the shape
    [YYYY-MM-DD HH:MM:SS]. *)
Lemma strftime_shape t : valid_datetime t -> is_timestamp (strftime t) = true.
Proof.
  intros (Hy & Hm & Hd & Hh & Hmi & Hs).
  pose proof (zpad_four_digits (year t) ltac:(lia)) as Py.
  pose proof (zpad_two_digits (month t) ltac:(lia)) as Pm.
  pose proof (zpad_two_digits (day t) ltac:(lia)) as Pd.
  pose proof (zpad_two_digits (hour t) ltac:(lia)) as Ph.
  pose proof (zpad_two_digits (minute t) ltac:(lia)) as Pmi.
  pose proof (zpad_two_digits (second t) ltac:(lia)) as Ps.
  unfold strftime.
  destruct (zpad 4 (year t)) as [|y1 [|y2 [|y3 [|y4 [|? ?]]]]];
    try discriminate Py.
  destruct (zpad 2 (month t)) as [|m1 [|m2 [|? ?]]]; try discriminate Pm.
  destruct (zpad 2 (day t)) as [|d1 [|d2 [|? ?]]]; try discriminate Pd.
  destruct (zpad 2 (hour t)) as [|h1 [|h2 [|? ?]]]; try discriminate Ph.
  destruct (zpad 2 (minute t)) as [|n1 [|n2 [|? ?]]]; try discriminate Pmi.
  destruct (zpad 2 (second t)) as [|s1 [|s2 [|? ?]]]; try discriminate Ps.
  cbn [two_digits four_digits] in *.
  repeat match goal with
         | H : _ && _ = true |- _ => apply andb_true_iff in H as [? ?]
         end.
  cbv beta iota zeta delta [String.append is_timestamp].
  repeat match goal with
         | H : is_digit _ = true |- _ => rewrite H; clear H
         end.
  reflexivity.
Qed.
End Timestamps.

Section FileLines.
Variable pf : Platform.

Lemma plain_line_one_newline t ty content :
  has_char LF content = false ->
  count_char LF (plain_line (strftime t) ty content) = 1%nat.
Proof.
  intros Hc. unfold plain_line. repeat rewrite count_char_app.
  rewrite (count_char_absent LF (strftime t))
    by (apply has_char_strftime; reflexivity).
  rewrite (count_char_absent LF (_name_ ty))
    by (apply has_char_name; right; right; reflexivity).
  rewrite (count_char_absent LF content Hc). reflexivity.
Qed.

Lemma plain_line_no_escape t ty content :
  has_char ESC content = false ->
  has_char ESC (plain_line (strftime t) ty content) = false.
Proof.
  intros Hc. unfold plain_line. repeat rewrite has_char_app.
  rewrite (has_char_strftime ESC t) by reflexivity.
  rewrite (has_char_name ESC ty) by (right; left; reflexivity).
  rewrite Hc. reflexivity.
Qed.

Lemma file_text_appended path text w :
  file_text (appended path text w) path = file_text w path +:+ text.
Proof. unfold file_text at 1, appended. simpl. rewrite lookup_insert_eq. reflexivity. Qed.

Lemma appended_not_refused path text w e :
  files (appended path text w) !! path <> Some (Refuses e).
Proof. unfold appended. simpl. rewrite lookup_insert_eq. discriminate. Qed.
End FileLines.

(** C7 (as amended). Two messages that pass the level filter, logged one
    after the other to the same writable path, leave the file with its
    earlier text followed by the text of the first and then of the second,
    each [[timestamp SEVERITY]: message] and a newline, the timestamp of
    shape [YYYY-MM-DD HH:MM:SS]; the logger puts no colour code in the
    file, although both console entries carry one.  These are two lines
    when neither message holds a newline, and free of escape characters
    when neither message holds one. *)
Theorem C7_two_messages_appended_in_order :
  forall (pf : Platform) (l1 l2 : Log) (c1 c2 : string) (w : World)
         (path : string),
    (forall k, valid_datetime (clock pf k)) ->
    log_file_path l1 = Some path ->
    log_file_path l2 = Some path ->
    str_truthy path = true ->
    value (log_level l1) <= value (type l1) ->
    value (log_level l2) <= value (type l2) ->
    (forall e, files w !! path <> Some (Refuses e)) ->
    let w2 := log pf l2 c2 (log pf l1 c1 w) in
    let t1 := strftime (clock pf (S (ticks w))) in
    let t2 := strftime (clock pf (S (S (S (ticks w))))) in
    let line1 := "[" +:+ t1 +:+ " " +:+ _name_ (type l1) +:+ "]: " +:+ c1
                 +:+ String LF "" in
    let line2 := "[" +:+ t2 +:+ " " +:+ _name_ (type l2) +:+ "]: " +:+ c2
                 +:+ String LF "" in
    file_text w2 path = file_text w path +:+ line1 +:+ line2
    /\ is_timestamp t1 = true /\ is_timestamp t2 = true
    /\ map severity_of_line (skipn (length (console w)) (console w2))
       = [Some (type l1); Some (type l2)]
    /\ (has_char LF c1 = false -> has_char LF c2 = false ->
        count_char LF (line1 +:+ line2) = 2%nat)
    /\ (has_char ESC c1 = false -> has_char ESC c2 = false ->
        has_char ESC (line1 +:+ line2) = false).
Proof.
  intros pf l1 l2 c1 c2 w path Hclock Hp1 Hp2 Htr Hl1 Hl2 Hok w2 t1 t2 line1 line2.
  apply below_level_false in Hl1, Hl2.
  assert (E1 : log pf l1 c1 w = appended path line1 (emitted pf (type l1) c1 w)).
  { apply log_write_ok; assumption. }
  assert (E2 : w2 = appended path line2
                      (emitted pf (type l2) c2 (log pf l1 c1 w))).
  { subst w2. rewrite (log_write_ok pf l2 c2 _ path Hl2 Hp2 Htr).
    - rewrite E1. reflexivity.
    - rewrite E1. intros e. apply appended_not_refused. }
  split; [|split; [|split; [|split; [|split]]]].
  - rewrite E2, file_text_appended.
    replace (file_text (emitted pf (type l2) c2 (log pf l1 c1 w)) path)
      with (file_text (log pf l1 c1 w) path) by reflexivity.
    rewrite E1, file_text_appended.
    replace (file_text (emitted pf (type l1) c1 w) path)
      with (file_text w path) by reflexivity.
    apply string_app_assoc.
  - apply strftime_shape, Hclock.
  - apply strftime_shape, Hclock.
  - rewrite E2, E1. unfold appended, emitted. cbn [console].
    rewrite <- app_assoc, skipn_app, Nat.sub_diag, skipn_all.
    cbn [skipn app map]. rewrite !severity_of_colored_line. reflexivity.
  - intros N1 N2. rewrite count_char_app.
    change line1 with (plain_line t1 (type l1) c1).
    change line2 with (plain_line t2 (type l2) c2).
    subst t1 t2.
    rewrite (plain_line_one_newline _ (type l1) c1 N1).
    rewrite (plain_line_one_newline _ (type l2) c2 N2). reflexivity.
  - intros N1 N2. rewrite has_char_app.
    change line1 with (plain_line t1 (type l1) c1).
    change line2 with (plain_line t2 (type l2) c2).
    subst t1 t2.
    rewrite (plain_line_no_escape _ (type l1) c1 N1).
    rewrite (plain_line_no_escape _ (type l2) c2 N2). reflexivity.
Qed.

Lemma C7_two_messages_appended_in_order_witness :
  file_text
    (log quiet_platform (mkLog ERROR DEBUG (Some "build.log")) "link failed"
       (log quiet_platform (mkLog INFO DEBUG (Some "build.log")) "compiling"
          empty_world))
    "build.log"
  = "[2024-03-07 09:05:01 INFO]: compiling" +:+ String LF ""
    +:+ "[2024-03-07 09:05:03 ERROR]: link failed" +:+ String LF "".
Proof.
  assert (Hclock : forall k, valid_datetime (clock quiet_platform k)).
  { intros k. unfold valid_datetime. simpl.
    pose proof (Nat.mod_upper_bound k 60). lia. }
  destruct (C7_two_messages_appended_in_order quiet_platform
              (mkLog INFO DEBUG (Some "build.log"))
              (mkLog ERROR DEBUG (Some "build.log"))
              "compiling" "link failed" empty_world "build.log"
              Hclock eq_refl eq_refl eq_refl
              ltac:(simpl; lia) ltac:(simpl; lia)
              ltac:(intros e; discriminate)) as [Hf _].
  rewrite Hf. reflexivity.
Defined.

(** C7 as stated fails: a message that holds a newline and one that holds
    an escape sequence, logged to the same path, leave three lines in the
    file, the second of them without timestamp or severity, and an escape
    character in the file. *)
Lemma C7_counterexample :
  let l := mkLog INFO DEBUG (Some "build.log") in
  let w2 := log quiet_platform l (String ESC "[31mred")
              (log quiet_platform l ("line one" +:+ String LF "line two")
                 empty_world) in
  file_text w2 "build.log"
  = "[2024-03-07 09:05:01 INFO]: line one" +:+ String LF ""
    +:+ "line two" +:+ String LF ""
    +:+ "[2024-03-07 09:05:03 INFO]: " +:+ String ESC "[31mred"
    +:+ String LF ""
  /\ count_char LF (file_text w2 "build.log") = 3%nat
  /\ has_char ESC (file_text w2 "build.log") = true.
Proof. vm_compute. repeat split. Qed.

(** * Further properties of the module *)

(** ** LogType and the colours *)

(** X1. [@verify(UNIQUE)]: the values of [LogType] are pairwise distinct
    and lie between 0 and 4, and so are the names: a severity is known
    from its value and from its name. *)
Theorem LogType_values_and_names_unique :
  forall t1 t2 : LogType,
    (value t1 = value t2 -> t1 = t2)
    /\ (_name_ t1 = _name_ t2 -> t1 = t2)
    /\ 0 <= value t1 <= 4.
Proof.
  intros t1 t2. repeat split.
  - destruct t1, t2; simpl; intros H; try reflexivity; discriminate H.
  - destruct t1, t2; simpl; intros H; try reflexivity; discriminate H.
  - destruct t1; simpl; lia.
  - destruct t1; simpl; lia.
Qed.

Lemma LogType_values_and_names_unique_witness :
  value WARNING = 2 /\ 0 <= value WARNING <= 4.
Proof.
  split; [reflexivity|].
  apply (LogType_values_and_names_unique WARNING WARNING).
Defined.

(** X2. [_get_color] gives every severity its own colour: two loggers
    with the same colour have the same type; the colour is never the
    reset code of the fallback case, and it is an escape character and
    four more characters. *)
Theorem get_color_distinct_per_severity :
  forall l1 l2 : Log,
    (_get_color l1 = _get_color l2 -> type l1 = type l2)
    /\ _get_color l1 <> ANSI_RESET
    /\ String.length (_get_color l1) = 5%nat
    /\ String.prefix (String ESC "[") (_get_color l1) = true.
Proof.
  intros [t1 ? ?] [t2 ? ?]. repeat split.
  - destruct t1, t2; intros H; try reflexivity; discriminate H.
  - destruct t1; discriminate.
  - destruct t1; reflexivity.
  - destruct t1; reflexivity.
Qed.

Lemma get_color_distinct_per_severity_witness :
  type (mkLog ERROR DEBUG None) = type (mkLog ERROR INFO (Some "x")).
Proof.
  apply (get_color_distinct_per_severity (mkLog ERROR DEBUG None)
           (mkLog ERROR INFO (Some "x"))).
  reflexivity.
Defined.

(** ** [log], case by case *)

Section LogClosedForm.
Variable pf : Platform.

(** What a call of [log] leaves behind, without recursion. *)
Lemma log_outcome self content w :
  log pf self content w =
  if below_level self then w else
  let w1 := emitted pf (type self) content w in
  match log_file_path self with
  | Some path =>
      if str_truthy path then
        match files w !! path with
        | Some (Refuses (AtOpen e)) =>
            let w4 := note_open path w1 in
            if value ERROR <? value (log_level self) then w4
            else emitted pf ERROR (failure_report path e) w4
        | Some (Refuses (AtWrite e existing partial)) =>
            let w4 :=
              after_failure path
                (plain_line (strftime (clock pf (S (ticks w)))) (type self)
                   content)
                (AtWrite e existing partial) w1 in
            if value ERROR <? value (log_level self) then w4
            else emitted pf ERROR (failure_report path e) w4
        | Some (Refuses (NotIOError msg)) =>
            propagate msg (note_open path w1)
        | _ =>
            appended path
              (plain_line (strftime (clock pf (S (ticks w)))) (type self)
                 content) w1
        end
      else w1
  | None => w1
  end.
Proof.
  destruct (below_level self) eqn:Hlvl; [apply log_below; exact Hlvl|].
  cbn zeta.
  destruct (log_file_path self) as [path|] eqn:Hpath.
  - destruct (str_truthy path) eqn:Htr.
    + destruct (files w !! path) as [[old|[e|e ex n|msg]]|] eqn:Hf.
      * apply log_write_ok; try assumption. intros e; congruence.
      * apply (log_write_fails pf self content w path e); assumption.
      * apply (log_io_failure pf self content w path (AtWrite e ex n) e);
          try assumption; reflexivity.
      * apply (log_not_io_error pf self content w path msg); assumption.
      * apply log_write_ok; try assumption. intros e; congruence.
    + apply log_no_file; [exact Hlvl|]. rewrite Hpath. exact Htr.
  - apply log_no_file; [exact Hlvl|]. rewrite Hpath. reflexivity.
Qed.

Lemma prefix_append (a b : string) : String.prefix a (a +:+ b) = true.
Proof.
  induction a as [|x a IH]; [destruct b; reflexivity|].
  change (String.prefix (String x a) (String x (a +:+ b)) = true).
  simpl. destruct (ascii_dec x x) as [_|N]; [exact IH | congruence].
Qed.

Lemma prefix_refl (a : string) : String.prefix a a = true.
Proof.
  induction a as [|x a IH]; [reflexivity|].
  simpl. destruct (ascii_dec x x) as [_|N]; [exact IH | congruence].
Qed.

Lemma file_text_appended_other path p text w :
  path <> p -> file_text (appended path text w) p = file_text w p.
Proof.
  intros Hne. unfold file_text, appended. simpl.
  rewrite lookup_insert_ne by exact Hne. reflexivity.
Qed.
End LogClosedForm.

Ltac log_cases_on pf self content w :=
  rewrite (log_outcome pf self content w); cbn zeta;
  destruct (below_level self) eqn:?;
  [| destruct (log_file_path self) as [?path|] eqn:?;
     [ destruct (str_truthy path) eqn:?;
       [ destruct (files w !! path) as [[?old|[?e|?e ?ex ?n|?m]]|] eqn:?;
         [ | destruct (value ERROR <? value (log_level self)) eqn:?
           | destruct (value ERROR <? value (log_level self)) eqn:?
           | | ]
       | ]
     | ] ];
  cbn [after_failure].

(** X3. [log] keeps to itself: it hands nothing to the shell, it leaves
    every path other than its own log file as it was, it only adds to the
    console, and the clock only moves forward. *)
Theorem log_touches_only_its_own_file :
  forall (pf : Platform) (self : Log) (content : string) (w : World),
    let w' := log pf self content w in
    spawned w' = spawned w
    /\ (forall p, log_file_path self <> Some p ->
                  files w' !! p = files w !! p)
    /\ (exists new, console w' = (console w ++ new)%list)
    /\ (ticks w <= ticks w')%nat.
Proof.
  intros pf self content w w'. subst w'.
  log_cases_on pf self content w; repeat split;
    try (exists []; rewrite app_nil_r; reflexivity);
    try (eexists; simpl; reflexivity);
    try (eexists; simpl; rewrite <- app_assoc; reflexivity);
    try (simpl; lia);
    try (intros p Hp; simpl; try reflexivity;
         rewrite lookup_insert_ne by congruence; reflexivity).
Qed.

Lemma log_touches_only_its_own_file_witness :
  files (log quiet_platform (mkLog INFO DEBUG (Some "build.log")) "x"
           locked_world) !! "/ro/build.log"
  = files locked_world !! "/ro/build.log".
Proof.
  apply (log_touches_only_its_own_file quiet_platform
           (mkLog INFO DEBUG (Some "build.log")) "x" locked_world).
  discriminate.
Defined.

(** X4. The log file is append-only: whatever a call of [log] does, the
    text each path held before is a prefix of the text it holds after. *)
Theorem log_file_is_append_only :
  forall (pf : Platform) (self : Log) (content : string) (w : World)
         (p : string),
    String.prefix (file_text w p) (file_text (log pf self content w) p) = true.
Proof.
  intros pf self content w p.
  log_cases_on pf self content w; try apply prefix_refl;
    destruct (String.eqb_spec path p) as [->|Hne];
    try (rewrite file_text_appended; apply prefix_append);
    try (rewrite (file_text_appended_other path p _ _ Hne); apply prefix_refl);
    unfold file_text; cbn [files emitted];
    try rewrite lookup_insert_eq;
    try rewrite (lookup_insert_ne _ path p _ Hne);
    repeat match goal with
           | H : files w !! _ = _ |- _ => rewrite H
           end;
    try apply prefix_refl;
    try (change (default EmptyString (Some ?x)) with x; apply prefix_append);
    reflexivity.
Qed.

(** X5. An empty string as log file path is no path: such a logger
    behaves exactly as one built without a path and never calls [open]. *)
Theorem log_empty_path_is_no_path :
  forall (pf : Platform) (ty lvl : LogType) (content : string) (w : World),
    log pf (mkLog ty lvl (Some EmptyString)) content w
    = log pf (mkLog ty lvl None) content w
    /\ opened (log pf (mkLog ty lvl (Some EmptyString)) content w) = opened w
    /\ files (log pf (mkLog ty lvl (Some EmptyString)) content w) = files w.
Proof.
  intros pf ty lvl content w.
  rewrite (log_outcome pf (mkLog ty lvl (Some EmptyString))),
    (log_outcome pf (mkLog ty lvl None)).
  cbn [type log_level log_file_path str_truthy].
  destruct (below_level _); repeat split.
  all: unfold below_level; cbn [type log_level];
       destruct (value ty <? value lvl); reflexivity.
Qed.

(** X6. When nothing exists at the log file path and the file can be
    created and written there (the path is absent from [files]), the first
    message that passes the filter creates the file, which then holds
    exactly that message's line; [open] is called once and the console
    gains one entry. *)
Theorem log_creates_missing_file :
  forall (pf : Platform) (self : Log) (content : string) (w : World)
         (path : string),
    value (log_level self) <= value (type self) ->
    log_file_path self = Some path ->
    str_truthy path = true ->
    files w !! path = None ->
    let w' := log pf self content w in
    files w' !! path
    = Some (Regular ("[" +:+ strftime (clock pf (S (ticks w))) +:+ " "
                     +:+ _name_ (type self) +:+ "]: " +:+ content
                     +:+ String LF ""))
    /\ opened w' = (opened w ++ [path])%list
    /\ console w'
       = (console w
          ++ [colored_line (type self) (strftime (clock pf (ticks w))) content])%list.
Proof.
  intros pf self content w path Hge Hpath Htr Hnone w'. subst w'.
  apply below_level_false in Hge.
  rewrite (log_write_ok pf self content w path Hge Hpath Htr)
    by (intros e; congruence).
  unfold appended, file_text. cbn [files console opened emitted].
  rewrite Hnone, lookup_insert_eq. repeat split.
Qed.

Lemma log_creates_missing_file_witness :
  files (log quiet_platform (mkLog INFO DEBUG (Some "build.log")) "start"
           empty_world) !! "build.log"
  = Some (Regular ("[2024-03-07 09:05:01 INFO]: start" +:+ String LF "")).
Proof.
  apply (log_creates_missing_file quiet_platform
           (mkLog INFO DEBUG (Some "build.log")) "start" empty_world
           "build.log" ltac:(simpl; lia) eq_refl eq_refl eq_refl).
Defined.

(** X7. The two ends of the level order.  A logger with the default
    minimum level DEBUG prints every message, whatever its type.  A
    logger with minimum level SUCCESS prints SUCCESS messages only: ERROR,
    WARNING, INFO and DEBUG messages leave the world untouched. *)
Theorem log_level_extremes :
  forall (pf : Platform) (self : Log) (content : string) (w : World),
    (log_level self = DEBUG ->
     exists rest,
       console (log pf self content w)
       = (console w
          ++ colored_line (type self) (strftime (clock pf (ticks w))) content
             :: rest)%list)
    /\ (log_level self = SUCCESS -> type self <> SUCCESS ->
        log pf self content w = w).
Proof.
  intros pf self content w. split.
  - intros Hl.
    assert (Hb : below_level self = false).
    { apply below_level_false. rewrite Hl. destruct (type self); simpl; lia. }
    log_cases_on pf self content w; try discriminate;
      try (exists []; reflexivity);
      eexists; simpl; rewrite <- app_assoc; reflexivity.
  - intros Hl Hty. apply log_below. apply below_level_spec. rewrite Hl.
    destruct (type self); simpl; try lia. congruence.
Qed.

Lemma log_level_extremes_witness :
  log quiet_platform (mkLog ERROR SUCCESS (Some "build.log")) "boom" empty_world
  = empty_world.
Proof.
  apply (log_level_extremes quiet_platform
           (mkLog ERROR SUCCESS (Some "build.log")) "boom" empty_world).
  - reflexivity.
  - discriminate.
Defined.

(** X8. One call of [log] costs at most two console entries, one call of
    [open] and four readings of the clock; a logger that has no usable
    path ([None] or the empty string) prints at most one entry, reads the
    clock at most twice and never calls [open]. *)
Theorem log_effects_are_bounded :
  forall (pf : Platform) (self : Log) (content : string) (w : World),
    let w' := log pf self content w in
    (length (console w') <= length (console w) + 2)%nat
    /\ (length (opened w') <= length (opened w) + 1)%nat
    /\ (ticks w' <= ticks w + 4)%nat
    /\ (opt_truthy (log_file_path self) = false ->
        (length (console w') <= length (console w) + 1)%nat
        /\ (ticks w' <= ticks w + 2)%nat
        /\ opened w' = opened w).
Proof.
  intros pf self content w w'. subst w'.
  log_cases_on pf self content w;
    cbn [emitted appended note_open propagate console opened ticks
         opt_truthy];
    repeat rewrite length_app; cbn [List.length];
    (split; [lia | split; [lia | split; [lia|]]]);
    intros Hno;
    try (split; [lia | split; [lia | reflexivity]]);
    congruence.
Qed.

Lemma log_effects_are_bounded_witness :
  (length (console (log quiet_platform (mkLog INFO DEBUG None) "x"
                      locked_world)) <= 1)%nat.
Proof.
  destruct (log_effects_are_bounded quiet_platform (mkLog INFO DEBUG None)
              "x" locked_world) as (_ & _ & _ & H).
  destruct (H eq_refl) as [Hc _].
  exact Hc.
Defined.

(** X9. Console and file say the same thing.  For a message that is
    written to the file, the console entry is the colour of the type, a
    body and the reset code, and the text appended to the file is a body
    and a newline; the two bodies are [[timestamp SEVERITY]: message] with
    the first and the second reading of the clock, so they are equal
    whenever the two readings format alike. *)
Theorem log_console_entry_matches_file_line :
  forall (pf : Platform) (self : Log) (content : string) (w : World)
         (path : string),
    value (log_level self) <= value (type self) ->
    log_file_path self = Some path ->
    str_truthy path = true ->
    (forall e, files w !! path <> Some (Refuses e)) ->
    let w' := log pf self content w in
    let body (k : nat) :=
      "[" +:+ strftime (clock pf k) +:+ " " +:+ _name_ (type self) +:+ "]: "
      +:+ content in
    console w'
    = (console w
       ++ [_get_color self +:+ body (ticks w) +:+ ANSI_RESET])%list
    /\ file_text w' path
       = file_text w path +:+ body (S (ticks w)) +:+ String LF ""
    /\ (strftime (clock pf (ticks w)) = strftime (clock pf (S (ticks w))) ->
        body (ticks w) = body (S (ticks w))).
Proof.
  intros pf self content w path Hge Hpath Htr Hok w' body. subst w'.
  apply below_level_false in Hge.
  rewrite (log_write_ok pf self content w path Hge Hpath Htr Hok).
  split; [|split].
  - unfold appended, emitted, colored_line, body. cbn [console].
    repeat rewrite string_app_assoc.
    destruct self as [[] ? ?]; reflexivity.
  - rewrite file_text_appended. unfold plain_line, body.
    repeat rewrite string_app_assoc. reflexivity.
  - intros Heq. unfold body. rewrite Heq. reflexivity.
Qed.

Lemma log_console_entry_matches_file_line_witness :
  file_text (log quiet_platform (mkLog INFO DEBUG (Some "build.log")) "start"
               empty_world) "build.log"
  = "[2024-03-07 09:05:01 INFO]: start" +:+ String LF "".
Proof.
  destruct (log_console_entry_matches_file_line quiet_platform
              (mkLog INFO DEBUG (Some "build.log")) "start" empty_world
              "build.log" ltac:(simpl; lia) eq_refl eq_refl
              ltac:(intros e; discriminate)) as (_ & Hf & _).
  rewrite Hf. reflexivity.
Defined.

(** ** [run], path by path *)

Section RunPaths.
Variable pf : Platform.

Lemma run_messages_raised_all_ERROR self e :
  run_messages pf self (inl e) <> []
  /\ Forall (fun m => fst m = ERROR) (run_messages pf self (inl e)).
Proof.
  destruct e as [rc cmd out err|m|m]; cbn [run_messages].
  - split; [discriminate|]. unfold captured_messages.
    destruct (str_truthy out), (str_truthy err); repeat constructor.
  - split; [discriminate | repeat constructor].
  - split; [discriminate | repeat constructor].
Qed.

Lemma severity_render_from_all k ty msgs :
  Forall (fun m => fst m = ty) msgs ->
  Forall (fun l => severity_of_line l = Some ty) (render_from pf k msgs).
Proof.
  intros H. revert k. induction H as [|[t c] msgs Hm _ IH]; intros k.
  - constructor.
  - simpl in Hm. subst t. cbn [render_from]. constructor.
    + apply severity_of_colored_line.
    + apply IH.
Qed.

Lemma length_render_from k msgs :
  length (render_from pf k msgs) = length msgs.
Proof.
  revert k. induction msgs as [|[t c] msgs IH]; intros k; simpl;
    [reflexivity | rewrite IH; reflexivity].
Qed.

Lemma length_run_messages self r :
  (1 <= length (run_messages pf self r) <= 3)%nat.
Proof.
  destruct r as [[rc cmd out err|m|m]|result]; cbn [run_messages];
    unfold captured_messages;
    try destruct (str_truthy out), (str_truthy err);
    try destruct (str_truthy (stdout result)), (str_truthy (stderr result));
    simpl; lia.
Qed.
End RunPaths.

(** X10. Every exception [run] lets through was logged first, and at
    ERROR severity only: when a run of a class-built [Cmd] raises, the
    console has gained the INFO entry of the start and after it one to
    three entries, all of severity ERROR, and the logger's type is left
    at ERROR. *)
Theorem run_raises_only_after_ERROR_entries :
  forall (pf : Platform) (check : bool) (self : Cmd) (w : World) (e : exn),
    class_built self ->
    snd (fst (run pf check self w)) = inl e ->
    type (logger (fst (fst (run pf check self w)))) = ERROR
    /\ exists rest,
         console (snd (run pf check self w))
         = (console w
            ++ colored_line INFO (strftime (clock pf (ticks w)))
                 ("Running command: '" +:+ full_command self +:+ "'...")
               :: rest)%list
         /\ (1 <= length rest <= 3)%nat
         /\ Forall (fun l => severity_of_line l = Some ERROR) rest.
Proof.
  intros pf check self w e Hcb Hr.
  destruct (run_class_built pf check self w Hcb) as [Ho Hc].
  cbn zeta in Ho, Hc.
  rewrite Ho in Hr. cbn [snd] in Hr. rewrite Hr in Ho, Hc.
  split.
  - rewrite Ho. cbn [fst]. rewrite (last_type_run_messages pf self (inl e)).
    reflexivity.
  - exists (render_from pf (S (S (ticks w))) (run_messages pf self (inl e))).
    split; [exact Hc|]. split.
    + rewrite length_render_from. apply length_run_messages.
    + apply severity_render_from_all, run_messages_raised_all_ERROR.
Qed.

Lemma run_raises_only_after_ERROR_entries_witness :
  type (logger (fst (fst (run exhausted_platform true (Cmd_init "make")
                            empty_world)))) = ERROR.
Proof.
  apply (run_raises_only_after_ERROR_entries exhausted_platform true
           (Cmd_init "make") empty_world
           (Exception "[Errno 12] Cannot allocate memory")
           (class_built_init "make") eq_refl).
Defined.

(** X11. The catch-all handler (lines 198-201): when spawning raises
    anything but the two exceptions handled before it, [run] prints one
    ERROR entry that names the command and the text of the exception,
    and raises that same exception again. *)
Theorem run_unexpected_fault_logged_and_reraised :
  forall (pf : Platform) (check : bool) (self : Cmd) (w : World)
         (msg : string) (fs' : gmap string fnode),
    class_built self ->
    shell pf (full_command self) (files w) = (SpawnFault msg, fs') ->
    fst (run pf check self w) = (set_logger_type ERROR self, inl (Exception msg))
    /\ console (snd (run pf check self w))
       = (console w
          ++ render_from pf (ticks w)
               [(INFO, "Running command: '" +:+ full_command self +:+ "'...");
                (ERROR, "An unexpected error occurred while running command '"
                        +:+ command self +:+ "': " +:+ msg)])%list.
Proof.
  intros pf check self w msg fs' Hcb Hsh.
  destruct (run_class_built pf check self w Hcb) as [Ho Hc].
  rewrite Hsh in Ho, Hc. split; [exact Ho | exact Hc].
Qed.

Lemma run_unexpected_fault_logged_and_reraised_witness :
  snd (fst (run exhausted_platform false (Cmd_init "make") empty_world))
  = inl (Exception "[Errno 12] Cannot allocate memory").
Proof.
  destruct (run_unexpected_fault_logged_and_reraised exhausted_platform false
              (Cmd_init "make") empty_world
              "[Errno 12] Cannot allocate memory" ∅
              (class_built_init "make") eq_refl) as [Ho _].
  rewrite Ho. reflexivity.
Defined.

(** X12. The handler for [FileNotFoundError] (lines 194-197): when
    spawning raises it, [run] prints one ERROR entry saying the command
    was not found, and raises the exception again. *)
Theorem run_file_not_found_logged_and_reraised :
  forall (pf : Platform) (check : bool) (self : Cmd) (w : World)
         (msg : string) (fs' : gmap string fnode),
    class_built self ->
    shell pf (full_command self) (files w) = (SpawnNotFound msg, fs') ->
    fst (run pf check self w)
    = (set_logger_type ERROR self, inl (FileNotFoundError msg))
    /\ console (snd (run pf check self w))
       = (console w
          ++ render_from pf (ticks w)
               [(INFO, "Running command: '" +:+ full_command self +:+ "'...");
                (ERROR, "Command '" +:+ command self
                        +:+ "' not found. Please ensure it is in your PATH.")])%list.
Proof.
  intros pf check self w msg fs' Hcb Hsh.
  destruct (run_class_built pf check self w Hcb) as [Ho Hc].
  rewrite Hsh in Ho, Hc. split; [exact Ho | exact Hc].
Qed.

Lemma run_file_not_found_logged_and_reraised_witness :
  snd (fst (run no_shell_platform false (Cmd_init "make") empty_world))
  = inl (FileNotFoundError "[Errno 2] No such file or directory: '/bin/sh'").
Proof.
  destruct (run_file_not_found_logged_and_reraised no_shell_platform false
              (Cmd_init "make") empty_world
              "[Errno 2] No such file or directory: '/bin/sh'" ∅
              (class_built_init "make") eq_refl) as [Ho _].
  rewrite Ho. reflexivity.
Defined.

(** X13. A command that exits with status 0: [check_returncode] makes no
    difference, [run] returns the command line, the status and both
    captured texts as the shell gave them (not stripped), and its second
    console entry is the SUCCESS message. *)
Theorem run_success_ignores_check :
  forall (pf : Platform) (check : bool) (self : Cmd) (w : World)
         (out err : string) (fs' : gmap string fnode),
    class_built self ->
    shell pf (full_command self) (files w) = (Exited 0 out err, fs') ->
    run pf check self w = run pf false self w
    /\ snd (fst (run pf check self w))
       = inr (mkCompletedProcess (full_command self) 0 out err)
    /\ exists rest,
         console (snd (run pf check self w))
         = (console w
            ++ render_from pf (ticks w)
                 [(INFO, "Running command: '" +:+ full_command self +:+ "'...");
                  (SUCCESS, "Command '" +:+ command self
                            +:+ "' completed successfully.")]
            ++ rest)%list.
Proof.
  intros pf check self w out err fs' Hcb Hsh.
  assert (Hsame : run pf check self w = run pf false self w).
  { rewrite !run_spec. cbn zeta. rewrite !subprocess_run_eq.
    rewrite (class_built_log_as pf self INFO _ w Hcb).
    cbn [emitted files]. rewrite Hsh. cbn [fst run_outcome Z.eqb negb].
    rewrite andb_false_r. reflexivity. }
  split; [exact Hsame|].
  destruct (run_class_built pf check self w Hcb) as [Ho Hc].
  rewrite Hsh in Ho, Hc. cbn [fst run_outcome Z.eqb negb] in Ho, Hc.
  rewrite andb_false_r in Ho, Hc. split.
  - rewrite Ho. reflexivity.
  - cbn [run_messages] in Hc. rewrite Hc.
    exists (render_from pf (ticks w + 4)
              (captured_messages INFO ERROR out err)).
    change (running_message self
            :: status_message self (mkCompletedProcess (full_command self) 0 out err)
            :: captured_messages INFO ERROR
                 (stdout (mkCompletedProcess (full_command self) 0 out err))
                 (stderr (mkCompletedProcess (full_command self) 0 out err)))
      with ([running_message self;
             status_message self (mkCompletedProcess (full_command self) 0 out err)]
            ++ captured_messages INFO ERROR out err)%list.
    rewrite render_from_app. reflexivity.
Qed.

Lemma run_success_ignores_check_witness :
  run chatty_platform true (Cmd_init "./hello") empty_world
  = run chatty_platform false (Cmd_init "./hello") empty_world.
Proof.
  apply (run_success_ignores_check chatty_platform true (Cmd_init "./hello")
           empty_world ("hi" +:+ String LF "") "warning: unused" ∅
           (class_built_init "./hello") eq_refl).
Defined.

(** X14. Without [check_returncode] a failing command is no error: [run]
    never raises [CalledProcessError], whatever the logger; for a
    class-built [Cmd] and a non-zero status it returns that status with
    both captured texts as the shell gave them, and its second console
    entry is the WARNING that names the status. *)
Theorem run_unchecked_failure_returns :
  forall (pf : Platform) (self : Cmd) (w : World),
    (forall rc cmd out err,
        snd (fst (run pf false self w)) <> inl (CalledProcessError rc cmd out err))
    /\ (forall (rc : Z) (out err : string) (fs' : gmap string fnode),
          class_built self ->
          shell pf (full_command self) (files w) = (Exited rc out err, fs') ->
          rc <> 0 ->
          snd (fst (run pf false self w))
          = inr (mkCompletedProcess (full_command self) rc out err)
          /\ exists rest,
               console (snd (run pf false self w))
               = (console w
                  ++ render_from pf (ticks w)
                       [(INFO, "Running command: '" +:+ full_command self
                               +:+ "'...");
                        (WARNING, "Command '" +:+ command self
                                  +:+ "' exited with code " +:+ str_int rc
                                  +:+ ".")]
                  ++ rest)%list).
Proof.
  intros pf self w. split.
  - intros rc cmd out err. rewrite run_spec. cbn zeta.
    rewrite subprocess_run_eq. cbn [fst snd].
    destruct (fst (shell pf (full_command self) _)); discriminate.
  - intros rc out err fs' Hcb Hsh Hrc.
    destruct (run_class_built pf false self w Hcb) as [Ho Hc].
    rewrite Hsh in Ho, Hc. cbn [fst run_outcome andb] in Ho, Hc. split.
    + rewrite Ho. reflexivity.
    + cbn [run_messages] in Hc. rewrite Hc.
      exists (render_from pf (ticks w + 4)
                (captured_messages INFO ERROR out err)).
      assert (Hst : status_message self
                      (mkCompletedProcess (full_command self) rc out err)
                    = (WARNING, "Command '" +:+ command self
                                +:+ "' exited with code " +:+ str_int rc +:+ ".")).
      { unfold status_message. cbn [returncode].
        apply Z.eqb_neq in Hrc. rewrite Hrc. reflexivity. }
      rewrite Hst.
      cbn [stdout stderr].
      change (running_message self
              :: (WARNING, "Command '" +:+ command self
                           +:+ "' exited with code " +:+ str_int rc +:+ ".")
              :: captured_messages INFO ERROR out err)
        with ([running_message self;
               (WARNING, "Command '" +:+ command self
                         +:+ "' exited with code " +:+ str_int rc +:+ ".")]
              ++ captured_messages INFO ERROR out err)%list.
      rewrite render_from_app. reflexivity.
Qed.

Lemma run_unchecked_failure_returns_witness :
  snd (fst (run failing_platform false (Cmd_init "cc") empty_world))
  = inr (mkCompletedProcess "cc " 1 ""
           ("main.c:1: error: expected ';'" +:+ String LF "")).
Proof.
  destruct (run_unchecked_failure_returns failing_platform (Cmd_init "cc")
              empty_world) as [_ H].
  destruct (H 1 "" ("main.c:1: error: expected ';'" +:+ String LF "") ∅
              (class_built_init "cc") eq_refl ltac:(discriminate)) as [Hr _].
  exact Hr.
Defined.

(** ** Objects built by the class, and runs of them *)

(** X15. No method of [Cmd] replaces or reconfigures the logger: every
    object obtained from the constructor by calls of [add_flags] and
    [run] has a logger with minimum level DEBUG and no log file, whose
    type is never DEBUG. *)
Theorem built_by_class_keeps_default_logger :
  forall (pf : Platform) (self : Cmd),
    built_by_class pf self ->
    log_level (logger self) = DEBUG
    /\ log_file_path (logger self) = None
    /\ type (logger self) <> DEBUG.
Proof.
  intros pf self H. induction H as [base|fl self H IH|check self w H IH].
  - repeat split. discriminate.
  - exact IH.
  - destruct IH as (Hl & Hp & _).
    rewrite run_spec. cbn zeta.
    destruct (subprocess_run pf (full_command self) check _) as [r w1].
    cbn [fst logger set_logger_type type log_level log_file_path].
    split; [exact Hl|]. split; [exact Hp|].
    rewrite (last_type_run_messages pf self r).
    destruct r as [e|result]; [discriminate|].
    destruct (str_truthy (stderr result)), (str_truthy (stdout result)),
      (returncode result =? 0); discriminate.
Qed.

Lemma built_by_class_keeps_default_logger_witness :
  log_level (logger (fst (fst (run failing_platform false
                                 (add_flags ["main.c"] (Cmd_init "cc"))
                                 empty_world)))) = DEBUG.
Proof.
  apply (built_by_class_keeps_default_logger failing_platform).
  apply built_run, built_add_flags, built_init.
Defined.

(** X16. What a run of a class-built [Cmd] does to the world besides
    printing: it calls [open] on nothing, the files are those the shell
    left, the console gains two to four entries, and the clock is read
    twice per entry. *)
Theorem run_footprint :
  forall (pf : Platform) (check : bool) (self : Cmd) (w : World),
    class_built self ->
    let w' := snd (run pf check self w) in
    opened w' = opened w
    /\ files w' = snd (shell pf (full_command self) (files w))
    /\ (length (console w) + 2 <= length (console w')
        <= length (console w) + 4)%nat
    /\ ticks w' = (ticks w + 2 * (length (console w') - length (console w)))%nat.
Proof.
  intros pf check self w Hcb w'. subst w'.
  rewrite run_spec. cbn zeta.
  rewrite (class_built_log_as pf self INFO _ w Hcb), subprocess_run_eq.
  rewrite (class_built_log_all pf self _ _ Hcb).
  cbn [snd emitted console files ticks spawned opened].
  pose proof (length_run_messages pf self
                (run_outcome check (full_command self)
                   (fst (shell pf (full_command self) (files w))))) as Hlen.
  repeat rewrite length_app. rewrite length_render_from.
  cbn [List.length]. repeat split; lia.
Qed.

Lemma run_footprint_witness :
  opened (snd (run chatty_platform false (Cmd_init "./hello") empty_world)) = [].
Proof.
  apply (run_footprint chatty_platform false (Cmd_init "./hello") empty_world
           (class_built_init "./hello")).
Defined.

(** X17. [run] uses the command and the flags without using them up:
    the object comes back with the same command and flags, so running it
    again hands the shell the same command line a second time. *)
Theorem run_twice_same_command_line :
  forall (pf : Platform) (check1 check2 : bool) (self : Cmd) (w : World),
    let self' := fst (fst (run pf check1 self w)) in
    let w' := snd (run pf check1 self w) in
    command self' = command self
    /\ flags self' = flags self
    /\ spawned (snd (run pf check2 self' w'))
       = (spawned w ++ [full_command self; full_command self])%list.
Proof.
  intros pf check1 check2 self w self' w'.
  assert (Hs : self' = set_logger_type (type (logger self')) self).
  { subst self'. rewrite run_spec. cbn zeta.
    destruct (subprocess_run pf (full_command self) check1 _) as [r w1].
    reflexivity. }
  split; [rewrite Hs; reflexivity|]. split; [rewrite Hs; reflexivity|].
  rewrite run_spawned. subst w'. rewrite run_spawned.
  rewrite Hs. rewrite <- app_assoc. reflexivity.
Qed.

(** X18. The script: it hands the shell one command line, the compile and
    the run of the sample joined by [&&], and it does not ask for the
    status to be checked: whatever status the shell reports comes back as
    a result, never as [CalledProcessError]; the script ends on an
    exception only when the spawn itself raised one. *)
Theorem main_runs_compile_and_program_unchecked :
  forall (pf : Platform) (w : World),
    let line :=
      "cc ./needs_to_link_to_raylib.c -o ./needs_to_link_to_raylib -Wall -O3 -lraylib -lm && ./needs_to_link_to_raylib" in
    spawned (snd (main pf w)) = (spawned w ++ [line])%list
    /\ snd (fst (main pf w))
       = match fst (shell pf line (files w)) with
         | Exited rc out err => inr (mkCompletedProcess line rc out err)
         | SpawnNotFound msg => inl (FileNotFoundError msg)
         | SpawnFault msg => inl (Exception msg)
         end.
Proof.
  intros pf w line. unfold main. split.
  - rewrite run_spawned. reflexivity.
  - match goal with
    | |- context [run pf false ?c w] =>
        destruct (run_class_built pf false c w (class_built_init "cc"))
          as [Ho _]
    end.
    rewrite Ho. cbn [snd].
    change (full_command _) with line.
    destruct (fst (shell pf line (files w))); reflexivity.
Qed.

(** ** Flags and captured output at the edges *)

Section JoinFacts.
Lemma join_cons sep (a b : string) (l : list string) :
  join sep (a :: b :: l) = a +:+ sep +:+ join sep (b :: l).
Proof. reflexivity. Qed.

Lemma join_cons_nonempty sep (a : string) (l : list string) :
  l <> [] -> join sep (a :: l) = a +:+ sep +:+ join sep l.
Proof. destruct l; [congruence | reflexivity]. Qed.

(** A flag that holds a space joins like two flags. *)
Lemma join_flag_with_space (l1 l2 : list string) (a b : string) :
  join " " (l1 ++ (a +:+ " " +:+ b) :: l2) = join " " (l1 ++ a :: b :: l2).
Proof.
  induction l1 as [|x l1 IH].
  - cbn [app]. destruct l2 as [|y l2].
    + reflexivity.
    + rewrite !join_cons, !string_app_assoc. reflexivity.
  - cbn [app].
    rewrite !join_cons_nonempty by (destruct l1; discriminate).
    rewrite IH. reflexivity.
Qed.

Lemma lstrip_all_space s : all_space s = true -> lstrip s = EmptyString.
Proof.
  induction s as [|c s IH]; [reflexivity|].
  cbn [all_space lstrip]. intros H. apply andb_true_iff in H as [Hc Hs].
  rewrite Hc. exact (IH Hs).
Qed.

Lemma strip_all_space s : all_space s = true -> strip s = EmptyString.
Proof. intros H. unfold strip. rewrite (lstrip_all_space s H). reflexivity. Qed.
End JoinFacts.

(** X19. Flags are not quoted: a flag that holds a space gives the same
    command line, and so the same call of the shell, as the two flags on
    either side of the space. *)
Theorem flag_with_space_is_two_flags :
  forall (pf : Platform) (check : bool) (self : Cmd) (a b : string)
         (later : list string) (w : World),
    full_command (add_flags later (add_flags [a +:+ " " +:+ b] self))
    = full_command (add_flags later (add_flags [a; b] self))
    /\ spawned (snd (run pf check
                       (add_flags later (add_flags [a +:+ " " +:+ b] self)) w))
       = spawned (snd (run pf check
                         (add_flags later (add_flags [a; b] self)) w)).
Proof.
  intros pf check self a b later w.
  assert (E : full_command (add_flags later (add_flags [a +:+ " " +:+ b] self))
              = full_command (add_flags later (add_flags [a; b] self))).
  { unfold full_command, add_flags. cbn [command flags].
    rewrite <- !app_assoc. cbn [app].
    rewrite join_flag_with_space. reflexivity. }
  split; [exact E|]. rewrite !run_spawned, E. reflexivity.
Qed.

(** X20. Captured output that is not empty but holds whitespace only (a
    lone newline, say) is still reported: the run prints the header entry
    with nothing after its newline. *)
Theorem run_reports_blank_stdout_as_empty_body :
  forall (pf : Platform) (self : Cmd) (w : World) (rc : Z) (out : string)
         (fs' : gmap string fnode),
    class_built self ->
    shell pf (full_command self) (files w) = (Exited rc out "", fs') ->
    str_truthy out = true ->
    all_space out = true ->
    exists first second,
      console (snd (run pf false self w))
      = (console w
         ++ [first; second;
             colored_line INFO (strftime (clock pf (ticks w + 4)))
               ("--- STDOUT ---" +:+ String LF "")])%list.
Proof.
  intros pf self w rc out fs' Hcb Hsh Htr Hsp.
  destruct (run_class_built pf false self w Hcb) as [_ Hc].
  rewrite Hsh in Hc. cbn [fst run_outcome andb run_messages] in Hc.
  unfold captured_messages in Hc. cbn [stdout stderr str_truthy] in Hc.
  rewrite Htr in Hc. unfold stdout_message in Hc.
  rewrite (strip_all_space out Hsp) in Hc.
  rewrite Hc. cbn [app render_from].
  destruct (running_message self) as [t1 c1].
  destruct (status_message self _) as [t2 c2].
  eexists _, _. cbn [render_from].
  replace (ticks w + 4)%nat with (S (S (S (S (ticks w))))) by lia.
  reflexivity.
Qed.

Lemma run_reports_blank_stdout_as_empty_body_witness :
  List.last (console (snd (run blank_platform false (Cmd_init "./quiet")
                             empty_world))) EmptyString
  = colored_line INFO "2024-03-07 09:05:04" ("--- STDOUT ---" +:+ String LF "").
Proof.
  destruct (run_reports_blank_stdout_as_empty_body blank_platform
              (Cmd_init "./quiet") empty_world 2 (String LF (String LF "")) ∅
              (class_built_init "./quiet") eq_refl eq_refl eq_refl)
    as (first & second & Hc).
  rewrite Hc. reflexivity.
Defined.

(** X21. A log file that cannot be written is tried again with every
    message: nothing is remembered of the failure, so two messages mean
    two refused calls of [open], and two reports when reports pass the
    filter. *)
Theorem log_retries_unwritable_file :
  forall (pf : Platform) (self : Log) (c1 c2 : string) (w : World)
         (path e : string),
    value (log_level self) <= value (type self) ->
    log_file_path self = Some path ->
    str_truthy path = true ->
    files w !! path = Some (Refuses e) ->
    let w2 := log pf self c2 (log pf self c1 w) in
    opened w2 = (opened w ++ [path; path])%list
    /\ files w2 = files w
    /\ length (console w2)
       = (length (console w)
          + (if (value ERROR <? value (log_level self))%Z then 2 else 4))%nat.
Proof.
  intros pf self c1 c2 w path e Hge Hpath Htr Hno w2. subst w2.
  apply below_level_false in Hge.
  rewrite (log_write_fails pf self c1 w path e Hge Hpath Htr Hno). cbn zeta.
  destruct (value ERROR <? value (log_level self)) eqn:Hrep;
    match goal with
    | |- context [log pf self c2 ?w1] =>
        rewrite (log_write_fails pf self c2 w1 path e Hge Hpath Htr Hno)
    end;
    cbn zeta; rewrite Hrep;
    cbn [note_open emitted console files opened];
    repeat rewrite length_app; repeat rewrite <- app_assoc;
    cbn [List.length app]; repeat split; lia.
Qed.

Lemma log_retries_unwritable_file_witness :
  opened (log quiet_platform (mkLog INFO DEBUG (Some "/ro/build.log")) "two"
            (log quiet_platform (mkLog INFO DEBUG (Some "/ro/build.log")) "one"
               locked_world))
  = ["/ro/build.log"; "/ro/build.log"].
Proof.
  apply (log_retries_unwritable_file quiet_platform
           (mkLog INFO DEBUG (Some "/ro/build.log")) "one" "two" locked_world
           "/ro/build.log" "[Errno 13] Permission denied: '/ro/build.log'"
           ltac:(simpl; lia) eq_refl eq_refl eq_refl).
Defined.
